(** * Discipline timer: a shallow embedding of [main.py]

    The program is a Flet page wired to one SQLite table.  Everything the
    handlers read or write is gathered in one explicit [World] value:
    the [DisciplineApp] object, the widgets the closures of [main] capture,
    and the [run_timer] coroutines that are asleep in [asyncio.sleep].
    A handler is a function from [World] to an [Outcome]; a handler that
    raises keeps the mutations it made before the exception. *)

From Stdlib Require Import ZArith QArith Qminmax List String Ascii Bool Lia.
From Stdlib Require Import DecimalString Sorting.Sorted Sorting.Permutation.
From Stdlib Require Import FinFun Finite.
Import ListNotations.

Open Scope string_scope.
Open Scope Z_scope.

(** ** System configuration (lines 20-22) *)

Definition DEFAULT_TARGET_HOURS : Z := 10.
Definition CHECK_IN_INTERVAL : Z := 15 * 60.

(** ** Database layer

    [hourly_logs] is a table whose key is [INTEGER PRIMARY KEY
    AUTOINCREMENT]: the engine keeps, next to the rows, the largest key it
    ever handed out and gives a new row one more than the larger of that
    counter and the largest key present.  Instants are integers (ticks of
    the wall clock); the clock reading is an input of each call, since
    [datetime.datetime.now()] is read from the environment.  Storage faults
    are outside the model: keys are unbounded integers (the engine refuses
    an insertion once the key 2^63 - 1 is used), and a file that holds the
    table is taken to hold it with the columns of the program. *)

Record LogEntry : Type := mkLogEntry {
  entry_id : Z;               (* column id *)
  timestamp : Z;
  activity : string;
  productivity_score : Z
}.

Record Store : Type := mkStore {
  hourly_logs : list LogEntry;   (* in insertion order *)
  sqlite_sequence : Z
}.

Definition max_rowid (l : list LogEntry) : Z :=
  fold_right (fun e m => Z.max (entry_id e) m) 0 l.

Definition next_rowid (db : Store) : Z :=
  Z.max (sqlite_sequence db) (max_rowid (hourly_logs db)) + 1.

(** INSERT INTO hourly_logs (timestamp, activity, productivity_score) *)
Definition insert_log (ts : Z) (act : string) (score : Z) (db : Store) : Store :=
  let k := next_rowid db in
  {| hourly_logs := (hourly_logs db ++ [mkLogEntry k ts act score])%list;
     sqlite_sequence := k |}.

(** ** The application object (lines 25-56) *)

Record DisciplineApp : Type := mkApp {
  conn : Store;
  is_working : bool;
  start_time : option Z;
  worked_seconds : Z;
  daily_target : Z;
  current_task_focus : string
}.

(** [CREATE TABLE IF NOT EXISTS hourly_logs]: the database file either
    holds the table already ([Some]), which is then kept as it is, or not
    ([None]), and an empty table is made. *)
Definition create_tables (file : option Store) : Store :=
  match file with
  | Some db => db
  | None => mkStore [] 0
  end.

Definition DisciplineApp_init (file : option Store) : DisciplineApp :=
  {| conn := create_tables file; is_working := false; start_time := None;
     worked_seconds := 0; daily_target := DEFAULT_TARGET_HOURS;
     current_task_focus := "General Work" |}.

Definition with_conn v (a : DisciplineApp) : DisciplineApp :=
  mkApp v (is_working a) (start_time a) (worked_seconds a) (daily_target a)
        (current_task_focus a).
Definition with_is_working v (a : DisciplineApp) : DisciplineApp :=
  mkApp (conn a) v (start_time a) (worked_seconds a) (daily_target a)
        (current_task_focus a).
Definition with_start_time v (a : DisciplineApp) : DisciplineApp :=
  mkApp (conn a) (is_working a) v (worked_seconds a) (daily_target a)
        (current_task_focus a).
Definition with_worked_seconds v (a : DisciplineApp) : DisciplineApp :=
  mkApp (conn a) (is_working a) (start_time a) v (daily_target a)
        (current_task_focus a).
Definition with_daily_target v (a : DisciplineApp) : DisciplineApp :=
  mkApp (conn a) (is_working a) (start_time a) (worked_seconds a) v
        (current_task_focus a).
Definition with_current_task_focus v (a : DisciplineApp) : DisciplineApp :=
  mkApp (conn a) (is_working a) (start_time a) (worked_seconds a)
        (daily_target a) v.

(** [log_activity(self, activity_text, score=0)]; [now] is the reading of
    [datetime.datetime.now()] taken by the call. *)
Definition log_activity (now : Z) (activity_text : string) (score : Z)
    (a : DisciplineApp) : DisciplineApp :=
  with_conn (insert_log now activity_text score (conn a)) a.

(** ** Widgets captured by the closures of [main] *)

Inductive Color : Type :=
  | GREEN_700 | RED_900 | WHITE | RED_200.

Record SnackBar : Type := mkSnack {
  snack_text : string;
  snack_color : option Color;
  snack_open : bool
}.

(** One row of [tasks_column]: the [Container] built by [add_task].  [ctl]
    stands for the identity of the Python object, which is what
    [list.remove] compares. *)
Record TaskRow : Type := mkRow {
  ctl : nat;
  task_text : string;
  checkbox : bool
}.

Definition target_options : list string := ["3"; "5"; "8"; "10"; "12"].

Record Page : Type := mkPage {
  target_value : string;          (* target_dropdown.value *)
  target_disabled : bool;         (* target_dropdown.disabled *)
  timer_text : string;
  current_focus_label : string;
  status_text : string;
  progress_bar : Q;
  task_input : string;
  tasks_column : list TaskRow;
  quote_text : string;
  note_input : string;
  btn_label_control : string;
  start_btn_style : Color;
  dialog_open : bool;             (* page.dialog is log_dialog and is open *)
  snack_bar : option SnackBar
}.

Definition with_target_value v (p : Page) : Page :=
  mkPage v (target_disabled p) (timer_text p) (current_focus_label p)
    (status_text p) (progress_bar p) (task_input p) (tasks_column p)
    (quote_text p) (note_input p) (btn_label_control p) (start_btn_style p)
    (dialog_open p) (snack_bar p).
Definition with_target_disabled v (p : Page) : Page :=
  mkPage (target_value p) v (timer_text p) (current_focus_label p)
    (status_text p) (progress_bar p) (task_input p) (tasks_column p)
    (quote_text p) (note_input p) (btn_label_control p) (start_btn_style p)
    (dialog_open p) (snack_bar p).
Definition with_timer_text v (p : Page) : Page :=
  mkPage (target_value p) (target_disabled p) v (current_focus_label p)
    (status_text p) (progress_bar p) (task_input p) (tasks_column p)
    (quote_text p) (note_input p) (btn_label_control p) (start_btn_style p)
    (dialog_open p) (snack_bar p).
Definition with_current_focus_label v (p : Page) : Page :=
  mkPage (target_value p) (target_disabled p) (timer_text p) v
    (status_text p) (progress_bar p) (task_input p) (tasks_column p)
    (quote_text p) (note_input p) (btn_label_control p) (start_btn_style p)
    (dialog_open p) (snack_bar p).
Definition with_status_text v (p : Page) : Page :=
  mkPage (target_value p) (target_disabled p) (timer_text p)
    (current_focus_label p) v (progress_bar p) (task_input p)
    (tasks_column p) (quote_text p) (note_input p) (btn_label_control p)
    (start_btn_style p) (dialog_open p) (snack_bar p).
Definition with_progress_bar v (p : Page) : Page :=
  mkPage (target_value p) (target_disabled p) (timer_text p)
    (current_focus_label p) (status_text p) v (task_input p)
    (tasks_column p) (quote_text p) (note_input p) (btn_label_control p)
    (start_btn_style p) (dialog_open p) (snack_bar p).
Definition with_task_input v (p : Page) : Page :=
  mkPage (target_value p) (target_disabled p) (timer_text p)
    (current_focus_label p) (status_text p) (progress_bar p) v
    (tasks_column p) (quote_text p) (note_input p) (btn_label_control p)
    (start_btn_style p) (dialog_open p) (snack_bar p).
Definition with_tasks_column v (p : Page) : Page :=
  mkPage (target_value p) (target_disabled p) (timer_text p)
    (current_focus_label p) (status_text p) (progress_bar p) (task_input p)
    v (quote_text p) (note_input p) (btn_label_control p)
    (start_btn_style p) (dialog_open p) (snack_bar p).
Definition with_quote_text v (p : Page) : Page :=
  mkPage (target_value p) (target_disabled p) (timer_text p)
    (current_focus_label p) (status_text p) (progress_bar p) (task_input p)
    (tasks_column p) v (note_input p) (btn_label_control p)
    (start_btn_style p) (dialog_open p) (snack_bar p).
Definition with_note_input v (p : Page) : Page :=
  mkPage (target_value p) (target_disabled p) (timer_text p)
    (current_focus_label p) (status_text p) (progress_bar p) (task_input p)
    (tasks_column p) (quote_text p) v (btn_label_control p)
    (start_btn_style p) (dialog_open p) (snack_bar p).
Definition with_btn_label_control v (p : Page) : Page :=
  mkPage (target_value p) (target_disabled p) (timer_text p)
    (current_focus_label p) (status_text p) (progress_bar p) (task_input p)
    (tasks_column p) (quote_text p) (note_input p) v (start_btn_style p)
    (dialog_open p) (snack_bar p).
Definition with_start_btn_style v (p : Page) : Page :=
  mkPage (target_value p) (target_disabled p) (timer_text p)
    (current_focus_label p) (status_text p) (progress_bar p) (task_input p)
    (tasks_column p) (quote_text p) (note_input p) (btn_label_control p) v
    (dialog_open p) (snack_bar p).
Definition with_dialog_open v (p : Page) : Page :=
  mkPage (target_value p) (target_disabled p) (timer_text p)
    (current_focus_label p) (status_text p) (progress_bar p) (task_input p)
    (tasks_column p) (quote_text p) (note_input p) (btn_label_control p)
    (start_btn_style p) v (snack_bar p).
Definition with_snack_bar v (p : Page) : Page :=
  mkPage (target_value p) (target_disabled p) (timer_text p)
    (current_focus_label p) (status_text p) (progress_bar p) (task_input p)
    (tasks_column p) (quote_text p) (note_input p) (btn_label_control p)
    (start_btn_style p) (dialog_open p) v.

(** ** The whole program state

    [timers] counts the [run_timer] coroutines suspended in
    [asyncio.sleep(1)]; [fresh] is the supply of identities for the
    [Container] objects [add_task] creates. *)

Record World : Type := mkWorld {
  app_logic : DisciplineApp;
  page : Page;
  timers : nat;
  fresh : nat
}.

Definition on_app (f : DisciplineApp -> DisciplineApp) (w : World) : World :=
  mkWorld (f (app_logic w)) (page w) (timers w) (fresh w).
Definition on_page (f : Page -> Page) (w : World) : World :=
  mkWorld (app_logic w) (f (page w)) (timers w) (fresh w).
Definition with_timers (n : nat) (w : World) : World :=
  mkWorld (app_logic w) (page w) n (fresh w).
Definition with_fresh (n : nat) (w : World) : World :=
  mkWorld (app_logic w) (page w) (timers w) n.

Definition focus_prefix : string := "🎯 التركيز الحالي: ".

(** ** Outcomes of a handler

    A handler either runs to its end (or to the point where its coroutine
    suspends) or raises; in both cases the mutations made so far stay.
    [signals] lists the check-in prompts the handler raised towards the
    user. *)

Inductive Exn : Type := ValueError | ZeroDivisionError.

Inductive Signal : Type := CheckIn (at_seconds : Z).

Record Outcome : Type := mkOutcome {
  final : World;
  uncaught : option Exn;
  signals : list Signal
}.

Definition ok (w : World) : Outcome := mkOutcome w None [].
Definition raise (x : Exn) (w : World) : Outcome := mkOutcome w (Some x) [].

(** ** Python primitives the handlers use *)

(** [divmod a b] for a positive [b]: floor division, as [Z.div]. *)
Definition divmod (a b : Z) : Z * Z := (a / b, a mod b).

(** ["{:02d}".format n]: decimal digits, padded with a zero up to width 2. *)
Definition format_02d (n : Z) : string :=
  let s := NilZero.string_of_int (Z.to_int n) in
  if (String.length s <? 2)%nat then "0" ++ s else s.

(** [a / b] on integers is true division and raises on a zero divisor.  The
    quotient is kept as the exact rational of which Python's float is the
    rounding; the [OverflowError] of a quotient beyond the floats (a count
    above 1e308) is not modelled. *)
Definition true_div (a b : Z) : option Q :=
  if b =? 0 then None else Some (inject_Z a / inject_Z b)%Q.

Definition is_digit (c : ascii) : bool :=
  let n := N_of_ascii c in (48 <=? n)%N && (n <=? 57)%N.

Fixpoint digits_value (s : string) (acc : Z) : option Z :=
  match s with
  | EmptyString => Some acc
  | String c r =>
      if is_digit c
      then digits_value r (10 * acc + (Z.of_N (N_of_ascii c) - 48))
      else None
  end.

(** [int(s)] on a string: an optional sign and decimal digits; [None] is
    [ValueError].  Python also accepts surrounding blanks, underscores
    between digits and digits outside ASCII; these are not modelled, the
    strings of the dropdown have none. *)
Definition py_int (s : string) : option Z :=
  match s with
  | EmptyString => None
  | String c r =>
      if Ascii.eqb c "-" then
        match r with
        | EmptyString => None
        | _ => option_map Z.opp (digits_value r 0)
        end
      else if Ascii.eqb c "+" then
        match r with
        | EmptyString => None
        | _ => digits_value r 0
        end
      else digits_value s 0
  end.

(** Truth value of a string: non-empty. *)
Definition truthy (s : string) : bool :=
  match s with EmptyString => false | _ => true end.

(** [list.remove(x)]: drops the first element equal to [x]; [None] is
    [ValueError] (no such element). *)
Fixpoint list_remove (c : nat) (l : list TaskRow) : option (list TaskRow) :=
  match l with
  | [] => None
  | r :: t =>
      if Nat.eqb (ctl r) c then Some t
      else option_map (cons r) (list_remove c t)
  end.

Definition dquote : string := String (ascii_of_nat 34) EmptyString.

Section Main.

(** The quotation list comes from a module that is not part of the program
    text (with a built-in list as fallback); it is a parameter. *)
Variable quotes : list string.

(** *** Logic functions of [main] *)

(** [pick] is the draw of [random.choice]. *)
Definition update_quote (pick : nat) (w : World) : World :=
  match quotes with
  | [] => w
  | _ =>
      let random_quote := nth (pick mod List.length quotes) quotes "" in
      on_page (with_quote_text (dquote ++ random_quote ++ dquote)) w
  end.

Definition on_target_change (w : World) : Outcome :=
  match py_int (target_value (page w)) with
  | None => raise ValueError w
  | Some n => ok (on_app (with_daily_target n) w)
  end.

Definition set_focus_task (task_name : string) (w : World) : World :=
  let w := on_app (with_current_task_focus task_name) w in
  on_page (with_current_focus_label (focus_prefix ++ task_name)) w.

Definition delete_task (task_row : string) (task_control : nat) (w : World)
    : Outcome :=
  match list_remove task_control (tasks_column (page w)) with
  | None => raise ValueError w
  | Some l => ok (on_page (with_tasks_column l) w)
  end.

Definition add_task (w : World) : World :=
  if negb (truthy (task_input (page w))) then w
  else
    let task_text := task_input (page w) in
    let task_row_control := fresh w in
    let w := with_fresh (S task_row_control) w in
    let row := mkRow task_row_control task_text false in
    let w := on_page (fun p => with_tasks_column (tasks_column p ++ [row])%list p) w in
    on_page (with_task_input "") w.

Definition close_dialog (w : World) : World :=
  on_page (with_dialog_open false) w.

Definition note_suffix (w : World) : string :=
  if truthy (note_input (page w))
  then " - ملاحظة: " ++ note_input (page w) else "".

Definition handle_yes (now : Z) (w : World) : World :=
  let note := note_suffix w in
  let w := on_app (log_activity now ("إجابة: نعم" ++ note) 1) w in
  let w := on_page (with_note_input "") w in
  let w := close_dialog w in
  on_page (with_snack_bar
             (Some (mkSnack "أحسنت! استمر 🔥" (Some WHITE) true))) w.

Definition handle_no (now : Z) (w : World) : World :=
  let note := note_suffix w in
  let w := on_app (log_activity now ("إجابة: لا" ++ note) 0) w in
  let w := on_page (with_note_input "") w in
  let w := close_dialog w in
  on_page (with_snack_bar
             (Some (mkSnack "عد للتركيز فوراً ⚠️" (Some RED_200) true))) w.

(** *** Background timer *)

Definition check_in_due (seconds : Z) : bool :=
  (seconds mod CHECK_IN_INTERVAL =? 0) && (seconds >? 0).

(** One pass through the body of the [while] of [run_timer] (lines 230-246),
    up to the [await asyncio.sleep(1)].  The progress bar takes any
    rational; a negative count, which would make the widget refuse the
    value, does not arise since the count starts at 0 and only grows. *)
Definition loop_body (w : World) : Outcome :=
  let w := on_app (fun a => with_worked_seconds (worked_seconds a + 1) a) w in
  let '(mins, secs) := divmod (worked_seconds (app_logic w)) 60 in
  let '(hours, mins) := divmod mins 60 in
  let w := on_page (with_timer_text
                      (format_02d hours ++ ":" ++ format_02d mins ++ ":"
                       ++ format_02d secs)) w in
  match true_div (worked_seconds (app_logic w))
                 (daily_target (app_logic w) * 3600) with
  | None => raise ZeroDivisionError w
  | Some progress =>
      let w := on_page (with_progress_bar (Qmin progress 1)) w in
      if check_in_due (worked_seconds (app_logic w)) then
        let w := on_page (with_dialog_open true) w in
        let w := on_page (with_snack_bar
                            (Some (mkSnack "🔔 سؤال الوعي!" None true))) w in
        mkOutcome w None [CheckIn (worked_seconds (app_logic w))]
      else ok w
  end.

(** [await run_timer()] as [start_work] reaches it: the loop head is
    tested, the body runs once and the coroutine goes to sleep. *)
Definition run_timer (w : World) : Outcome :=
  if is_working (app_logic w) then
    let o := loop_body w in
    match uncaught o with
    | None => mkOutcome (with_timers (S (timers (final o))) (final o))
                        None (signals o)
    | Some _ => o
    end
  else ok w.

(** A sleeping [run_timer] resumes: the loop head is tested again; the
    coroutine either runs the body and sleeps again, or ends. *)
Definition run_timer_resume (w : World) : Outcome :=
  if is_working (app_logic w) then
    let o := loop_body w in
    match uncaught o with
    | None => o
    | Some x => mkOutcome (with_timers (pred (timers (final o))) (final o))
                          (Some x) (signals o)
    end
  else ok (with_timers (pred (timers w)) w).

Definition start_work (now : Z) (pick : nat) (w : World) : Outcome :=
  if negb (is_working (app_logic w)) then
    let w := on_app (with_is_working true) w in
    let w := on_app (with_start_time (Some now)) w in
    let w := update_quote pick w in
    let w := on_page (with_btn_label_control "توقف (استراحة)") w in
    let w := on_page (with_start_btn_style RED_900) w in
    let w := on_page (with_status_text "🔥 وضع العمل مفعل") w in
    let w := on_page (with_target_disabled true) w in
    run_timer w
  else
    let w := on_app (with_is_working false) w in
    let w := on_page (with_btn_label_control "بدء يوم العمل") w in
    let w := on_page (with_start_btn_style GREEN_700) w in
    let w := on_page (with_status_text "تم الإيقاف المؤقت") w in
    let w := on_page (with_target_disabled false) w in
    ok w.

(** *** Start of [main] (lines 60-285) *)

Definition main_init (file : option Store) (pick : nat) : World :=
  update_quote pick
  {| app_logic := DisciplineApp_init file;
     page := {| target_value := "10";
                target_disabled := false;
                timer_text := "00:00:00";
                current_focus_label := focus_prefix ++ "General Work";
                status_text := "هل أنت مستعد للبدء؟";
                progress_bar := 0%Q;
                task_input := "";
                tasks_column := [];
                quote_text := "توكل على الله";
                note_input := "";
                btn_label_control := "بدء يوم العمل";
                start_btn_style := GREEN_700;
                dialog_open := false;
                snack_bar := None |};
     timers := 0;
     fresh := 0 |}.

(** ** What the user and the event loop can do

    [deliver] is a model of the Flet client and of the event loop, not of
    code of [main.py]: it decides which handler the page calls for an event
    and when.  The handlers themselves test none of this.  The assumptions
    are: the dropdown delivers a change only for one of its five options
    and never while it is disabled; the two answer buttons belong to the
    dialog and can be clicked only while it is open; the buttons of a task
    belong to its row and can be clicked only while the row is on the page;
    a timer wakes only if one is asleep.  The start button is taken to be
    reachable at any time.  In the words of the specification:
    [ClickStart] is toggle, a pass of [loop_body] is a tick, [SelectTarget]
    is set_target, [ClickFocus] is set_focus, [ClickYes] and [ClickNo] are
    the two answers, [ClickAdd] and [ClickDelete] are add_task and
    delete_task. *)

Inductive Event : Type :=
  | ClickStart (now : Z) (pick : nat)
  | TimerWake
  | SelectTarget (v : string)
  | TypeTask (txt : string)
  | ClickAdd
  | ClickFocus (c : nat)
  | ClickDelete (c : nat)
  | TypeNote (txt : string)
  | ClickYes (now : Z)
  | ClickNo (now : Z).

Definition find_row (c : nat) (w : World) : option TaskRow :=
  find (fun r => Nat.eqb (ctl r) c) (tasks_column (page w)).

Definition in_options (v : string) : bool :=
  existsb (String.eqb v) target_options.

Definition deliver (e : Event) (w : World) : Outcome :=
  match e with
  | ClickStart now pick => start_work now pick w
  | TimerWake =>
      match timers w with
      | O => ok w
      | S _ => run_timer_resume w
      end
  | SelectTarget v =>
      if target_disabled (page w) || negb (in_options v) then ok w
      else on_target_change (on_page (with_target_value v) w)
  | TypeTask txt => ok (on_page (with_task_input txt) w)
  | ClickAdd => ok (add_task w)
  | ClickFocus c =>
      match find_row c w with
      | Some r => ok (set_focus_task (task_text r) w)
      | None => ok w
      end
  | ClickDelete c =>
      match find_row c w with
      | Some r => delete_task (task_text r) c w
      | None => ok w
      end
  | TypeNote txt => ok (on_page (with_note_input txt) w)
  | ClickYes now => if dialog_open (page w) then ok (handle_yes now w) else ok w
  | ClickNo now => if dialog_open (page w) then ok (handle_no now w) else ok w
  end.

(** A run: the events are handled one after the other; an exception ends
    the handler that raised it and nothing else. *)
Fixpoint run (es : list Event) (w : World) : World * list Signal :=
  match es with
  | [] => (w, [])
  | e :: es' =>
      let o := deliver e w in
      let '(w', s) := run es' (final o) in
      (w', (signals o ++ s)%list)
  end.

End Main.

(** ** Observations on a world *)

Definition working (w : World) : bool := is_working (app_logic w).
Definition seconds (w : World) : Z := worked_seconds (app_logic w).
Definition target (w : World) : Z := daily_target (app_logic w).
Definition logs (w : World) : list LogEntry := hourly_logs (conn (app_logic w)).
Definition tasks (w : World) : list TaskRow := tasks_column (page w).

(** The three states of the check-in protocol, read off a world. *)
Inductive Phase : Type := IDLE | WORKING | AWAITING_CHECKIN.

Definition phase (w : World) : Phase :=
  if working w then
    if dialog_open (page w) then AWAITING_CHECKIN else WORKING
  else IDLE.

Definition target_hours : list Z := [3; 5; 8; 10; 12].

(** What holds of every world the program reaches: the target is one of
    the five offered, and the dropdown is disabled exactly while working. *)
Definition valid (w : World) : Prop :=
  In (target w) target_hours /\ target_disabled (page w) = working w.

(** The values the counter takes on its way from [a] (excluded) to [b]. *)
Definition crossed (a b : Z) : list Z :=
  map (fun k => a + Z.of_nat k) (seq 1 (Z.to_nat (b - a))).

(** Hours, minutes and seconds as the specification words them. *)
Definition display_of (elapsed : Z) : string :=
  format_02d (elapsed / 3600) ++ ":" ++ format_02d ((elapsed mod 3600) / 60)
  ++ ":" ++ format_02d (elapsed mod 60).

Definition ordered_by_id (l : list LogEntry) : Prop :=
  StronglySorted (fun x y => entry_id x < entry_id y) l.

(** The outcome of a pass of the loop, or of no pass at all. *)
Definition one_tick (w : World) (o : Outcome) : Prop :=
  seconds (final o) = seconds w + 1 /\ working (final o) = true /\
  signals o = if check_in_due (seconds w + 1)
              then [CheckIn (seconds w + 1)] else [].

Definition no_tick (w : World) (o : Outcome) : Prop :=
  seconds (final o) = seconds w /\ signals o = [].

(** ** Worlds used as examples *)

(** On a fresh start: work is started (one second counted at once),
    stopped and started again. *)
Definition started_world : World :=
  final (start_work [] 0 0 (main_init [] None 0)).

(** A page with one task, "read", typed and added on a fresh start. *)
Definition one_task_world : World :=
  add_task (on_page (with_task_input "read") (main_init [] None 0)).

(** A world in which work is on, 900 seconds are counted and the prompt
    is open with a note typed in. *)
Definition awaiting_world : World :=
  on_page (with_note_input "deep work")
    (final (loop_body
      (on_app (with_worked_seconds 899)
        (final (start_work [] 0 0 (main_init [] None 0)))))).

(** One task, "read", taken as focus, and work started: a timer is asleep
    and one second is counted. *)
Definition focused_working_world : World :=
  final (start_work [] 0 0 (set_focus_task "read" one_task_world)).

(** Work is on with 898 seconds counted; the timer wakes twice, the user
    stops, a stale wake-up arrives, the user starts again. *)
Definition near_check_in : World :=
  on_app (with_worked_seconds 898) started_world.

(** ** Invariants of the page *)

(** What a pass of the timer loop leaves alone. *)
Definition untouched_by_timer (w : World) :=
  (target_value (page w), target_disabled (page w),
   current_focus_label (page w), status_text (page w), task_input (page w),
   tasks_column (page w), quote_text (page w), note_input (page w),
   btn_label_control (page w), start_btn_style (page w), fresh w,
   conn (app_logic w), is_working (app_logic w), start_time (app_logic w),
   daily_target (app_logic w), current_task_focus (app_logic w)).

(** What the start button leaves alone, in either branch. *)
Definition untouched_by_start (w : World) :=
  (target_value (page w), current_focus_label (page w), task_input (page w),
   tasks_column (page w), note_input (page w), fresh w, conn (app_logic w),
   daily_target (app_logic w), current_task_focus (app_logic w)).

(** The label under the timer shows the focus the application holds. *)
Definition focus_shown (w : World) : Prop :=
  current_focus_label (page w)
  = focus_prefix ++ current_task_focus (app_logic w).

(** The dropdown shows one of its options, and it is the target in force. *)
Definition dropdown_agrees (w : World) : Prop :=
  In (target_value (page w)) target_options /\
  py_int (target_value (page w)) = Some (target w).

(** The start button shows the action it performs and the dropdown is
    locked exactly while working. *)
Definition face_matches (w : World) : Prop :=
  btn_label_control (page w)
  = (if working w then "توقف (استراحة)" else "بدء يوم العمل") /\
  start_btn_style (page w) = (if working w then RED_900 else GREEN_700) /\
  target_disabled (page w) = working w.

(** The rows of the task list are distinct objects, all older than the
    next one to be made. *)
Definition rows_distinct (w : World) : Prop :=
  NoDup (map ctl (tasks w)) /\
  Forall (fun r => (ctl r < fresh w)%nat) (tasks w).

Definition is_answer (e : Event) : bool :=
  match e with
  | ClickYes _ | ClickNo _ => true
  | _ => false
  end.

Definition is_wake (e : Event) : bool :=
  match e with
  | TimerWake => true
  | _ => false
  end.

Definition binary_score (e : LogEntry) : Prop :=
  productivity_score e = 0 \/ productivity_score e = 1.

(** The display shows the seconds counted. *)
Definition clock_shown (w : World) : Prop :=
  timer_text (page w) = display_of (seconds w) /\ 0 <= seconds w.

(** While work is on, some [run_timer] is asleep and will wake. *)
Definition timer_alive (w : World) : Prop :=
  working w = true -> timers w <> O.

Definition other_row (c : nat) (r : TaskRow) : bool := negb (Nat.eqb (ctl r) c).

(** The keys of the table are 1, 2, ... in insertion order and the
    counter of the table is the last of them. *)
Definition keys_count_up (db : Store) : Prop :=
  map entry_id (hourly_logs db)
  = map Z.of_nat (seq 1 (List.length (hourly_logs db))) /\
  sqlite_sequence db = Z.of_nat (List.length (hourly_logs db)).

(** * Properties *)

(** ** Tasks and focus *)

Lemma truthy_false (s : string) : truthy s = false <-> s = "".
Proof. destruct s; simpl; split; congruence. Qed.

Lemma list_remove_length (c : nat) (l l' : list TaskRow) :
  list_remove c l = Some l' -> S (List.length l') = List.length l.
Proof.
  revert l'; induction l as [|r t IH]; intros l' H; simpl in H.
  - discriminate.
  - destruct (Nat.eqb (ctl r) c).
    + injection H as <-. reflexivity.
    + destruct (list_remove c t) as [t'|]; [|discriminate].
      injection H as <-. simpl. f_equal. now apply IH.
Qed.

Lemma list_remove_found (c : nat) (l : list TaskRow) (r : TaskRow) :
  find (fun r => Nat.eqb (ctl r) c) l = Some r ->
  exists l', list_remove c l = Some l'.
Proof.
  induction l as [|x t IH]; simpl; intros H.
  - discriminate.
  - destruct (Nat.eqb (ctl x) c).
    + eauto.
    + destruct (IH H) as [t' ->]. simpl. eauto.
Qed.

Lemma list_remove_gone (c : nat) (l l' : list TaskRow) :
  NoDup (map ctl l) -> list_remove c l = Some l' ->
  find (fun r => Nat.eqb (ctl r) c) l' = None.
Proof.
  revert l'; induction l as [|x t IH]; intros l' ND H; simpl in H.
  - discriminate.
  - simpl in ND. inversion ND as [|? ? Hx ND']; subst.
    destruct (Nat.eqb (ctl x) c) eqn:E.
    + injection H as <-. apply Nat.eqb_eq in E. subst c.
      destruct (find _ t) as [y|] eqn:F; [|reflexivity].
      apply find_some in F. destruct F as [Hin Hy].
      apply Nat.eqb_eq in Hy. exfalso. apply Hx. rewrite <- Hy.
      now apply in_map.
    + destruct (list_remove c t) as [t'|] eqn:R; [|discriminate].
      injection H as <-. simpl. rewrite E. now apply IH.
Qed.

(** C9: adding a task with an empty input changes nothing and raises
    nothing; with a non-empty input exactly one row, carrying that text, is
    appended at the end of the list (and the input is emptied). *)
Theorem add_task_empty_noop (quotes : list string) (w : World) :
  (task_input (page w) = "" ->
     add_task w = w /\ deliver quotes ClickAdd w = ok w) /\
  (task_input (page w) <> "" ->
     tasks (add_task w)
       = (tasks w ++ [mkRow (fresh w) (task_input (page w)) false])%list /\
     List.length (tasks (add_task w)) = S (List.length (tasks w)) /\
     task_input (page (add_task w)) = "" /\
     app_logic (add_task w) = app_logic w /\
     uncaught (deliver quotes ClickAdd w) = None).
Proof.
  split; intros H.
  - assert (E : add_task w = w).
    { unfold add_task. rewrite H. reflexivity. }
    split; [exact E|]. simpl. now rewrite E.
  - assert (T : truthy (task_input (page w)) = true).
    { destruct (truthy _) eqn:E; [reflexivity|].
      apply truthy_false in E. contradiction. }
    unfold add_task, tasks. rewrite T. cbn.
    repeat split. rewrite length_app. simpl. lia.
Qed.

Lemma add_task_empty_noop_witness :
  task_input (page (main_init [] None 0)) = "" /\
  add_task (main_init [] None 0) = main_init [] None 0.
Proof.
  split; [reflexivity|].
  apply (proj1 (add_task_empty_noop [] (main_init [] None 0))).
  reflexivity.
Defined.

(** C10: deleting a task never touches the focus: neither the label on the
    page nor the focus kept by the application object changes, whether the
    removal succeeds or raises.  After [set_focus_task] on the text of a
    row and the deletion of that row, the label still shows that text
    although no row with that identity is left. *)
Theorem delete_task_keeps_focus (quotes : list string) (w : World)
    (c : nat) (r : TaskRow) :
  (forall txt,
     current_focus_label (page (final (delete_task txt c w)))
       = current_focus_label (page w) /\
     current_task_focus (app_logic (final (delete_task txt c w)))
       = current_task_focus (app_logic w)) /\
  (find_row c w = Some r -> NoDup (map ctl (tasks w)) ->
     let w1 := set_focus_task (task_text r) w in
     let o := deliver quotes (ClickDelete c) w1 in
     uncaught o = None /\
     current_focus_label (page (final o)) = focus_prefix ++ task_text r /\
     current_task_focus (app_logic (final o)) = task_text r /\
     find_row c (final o) = None /\
     S (List.length (tasks (final o))) = List.length (tasks w)).
Proof.
  split.
  - intros txt. unfold delete_task.
    destruct (list_remove c (tasks_column (page w))); split; reflexivity.
  - intros F ND. cbn zeta.
    assert (F1 : find_row c (set_focus_task (task_text r) w) = Some r)
      by exact F.
    cbn [deliver]. rewrite F1.
    destruct (list_remove_found _ _ _ F) as [l' R].
    unfold delete_task.
    change (tasks_column (page (set_focus_task (task_text r) w)))
      with (tasks_column (page w)).
    rewrite R. cbn.
    repeat split.
    + unfold find_row. cbn. exact (list_remove_gone _ _ _ ND R).
    + exact (list_remove_length _ _ _ R).
Qed.

Lemma delete_task_keeps_focus_witness :
  find_row 0 one_task_world = Some (mkRow 0 "read" false) /\
  NoDup (map ctl (tasks one_task_world)) /\
  current_focus_label
    (page (final (deliver [] (ClickDelete 0)
                    (set_focus_task "read" one_task_world))))
  = focus_prefix ++ "read".
Proof.
  split; [reflexivity|]. split.
  - repeat constructor. simpl. tauto.
  - apply (proj2 (delete_task_keeps_focus [] one_task_world 0
                    (mkRow 0 "read" false))).
    + reflexivity.
    + repeat constructor. simpl. tauto.
Defined.

(** ** Check-in answers and the toggle *)

Lemma insert_log_rows (ts : Z) (act : string) (score : Z) (db : Store) :
  hourly_logs (insert_log ts act score db)
  = (hourly_logs db ++ [mkLogEntry (next_rowid db) ts act score])%list.
Proof. reflexivity. Qed.

(** C7: answering yes records one entry with score 1, answering no one
    entry with score 0; the activity text is the answer followed by the
    note when there is one.  Both handlers empty the note field and close
    the prompt without touching [is_working], so an awaited check-in goes
    back to WORKING. *)
Theorem answers_record_and_resume (now : Z) (w : World) :
  let yes := handle_yes now w in
  let no := handle_no now w in
  logs yes = (logs w ++ [mkLogEntry (next_rowid (conn (app_logic w))) now
                           ("إجابة: نعم" ++ note_suffix w) 1])%list /\
  logs no = (logs w ++ [mkLogEntry (next_rowid (conn (app_logic w))) now
                          ("إجابة: لا" ++ note_suffix w) 0])%list /\
  (note_input (page w) = "" -> note_suffix w = "") /\
  (note_input (page w) <> "" ->
     note_suffix w = " - ملاحظة: " ++ note_input (page w)) /\
  note_input (page yes) = "" /\ note_input (page no) = "" /\
  dialog_open (page yes) = false /\ dialog_open (page no) = false /\
  working yes = working w /\ working no = working w /\
  seconds yes = seconds w /\ seconds no = seconds w /\
  (phase w = AWAITING_CHECKIN -> phase yes = WORKING /\ phase no = WORKING).
Proof.
  cbn zeta. unfold logs, working, seconds, phase.
  repeat match goal with |- _ /\ _ => split end;
    try reflexivity.
  - intros H. unfold note_suffix. now rewrite H.
  - intros H. unfold note_suffix.
    destruct (note_input (page w)); [contradiction|reflexivity].
  - unfold working. cbn.
    destruct (is_working (app_logic w)); [|discriminate].
    intros _. split; reflexivity.
Qed.

Lemma answers_record_and_resume_witness :
  phase awaiting_world = AWAITING_CHECKIN /\
  phase (handle_yes 1000 awaiting_world) = WORKING /\
  phase (handle_no 1000 awaiting_world) = WORKING.
Proof.
  split; [reflexivity|].
  apply (answers_record_and_resume 1000 awaiting_world).
  reflexivity.
Defined.

(** The else branch of [start_work]: work is on and the button stops it. *)
Lemma start_work_working (quotes : list string) (now : Z) (pick : nat)
    (w : World) :
  working w = true ->
  let o := start_work quotes now pick w in
  uncaught o = None /\ signals o = [] /\
  working (final o) = false /\ phase (final o) = IDLE /\
  conn (app_logic (final o)) = conn (app_logic w) /\
  logs (final o) = logs w /\
  seconds (final o) = seconds w /\
  dialog_open (page (final o)) = dialog_open (page w).
Proof.
  unfold working, logs, seconds, phase, start_work. intros H.
  rewrite H. cbn. repeat split.
Qed.

(** C8: pressing the button while working stops the work, whatever the
    state of the prompt, and writes nothing: the table and its counter are
    as before, the counted seconds too, and the prompt is left as it was. *)
Theorem stop_abandons_prompt_silently (quotes : list string) (now : Z)
    (pick : nat) (w : World) :
  working w = true ->
  let o := start_work quotes now pick w in
  uncaught o = None /\ signals o = [] /\
  working (final o) = false /\ phase (final o) = IDLE /\
  conn (app_logic (final o)) = conn (app_logic w) /\
  logs (final o) = logs w /\
  seconds (final o) = seconds w /\
  dialog_open (page (final o)) = dialog_open (page w).
Proof. apply start_work_working. Qed.

Lemma stop_abandons_prompt_silently_witness :
  working awaiting_world = true /\
  dialog_open (page awaiting_world) = true /\
  logs (final (start_work [] 2000 0 awaiting_world)) = logs awaiting_world.
Proof.
  split; [reflexivity|]. split; [reflexivity|].
  apply (stop_abandons_prompt_silently [] 2000 0 awaiting_world).
  reflexivity.
Defined.

(** ** One pass of the timer loop *)

Lemma loop_body_seconds (w : World) :
  seconds (final (loop_body w)) = seconds w + 1.
Proof.
  unfold seconds, loop_body. cbn.
  destruct (true_div _ _); [|reflexivity].
  destruct (check_in_due _); reflexivity.
Qed.

Lemma loop_body_frame (w : World) :
  let w' := final (loop_body w) in
  working w' = working w /\ target w' = target w /\
  conn (app_logic w') = conn (app_logic w) /\
  target_disabled (page w') = target_disabled (page w) /\
  timers w' = timers w /\ tasks w' = tasks w /\
  current_focus_label (page w') = current_focus_label (page w).
Proof.
  unfold working, target, tasks, loop_body. cbn.
  destruct (true_div _ _); [|repeat split].
  destruct (check_in_due _); repeat split.
Qed.

Lemma true_div_some (a b : Z) :
  b <> 0 -> true_div a b = Some (inject_Z a / inject_Z b)%Q.
Proof.
  intros H. unfold true_div. destruct (Z.eqb_spec b 0); [contradiction|].
  reflexivity.
Qed.

Lemma loop_body_ok (w : World) :
  target w <> 0 ->
  uncaught (loop_body w) = None /\
  signals (loop_body w)
  = if check_in_due (seconds w + 1) then [CheckIn (seconds w + 1)] else [].
Proof.
  unfold target, seconds, loop_body. intros H. cbn.
  rewrite true_div_some by lia.
  destruct (check_in_due _); split; reflexivity.
Qed.

Lemma check_in_due_spec (n : Z) :
  check_in_due n = true <-> 0 < n /\ exists k, n = 900 * k.
Proof.
  unfold check_in_due, CHECK_IN_INTERVAL.
  rewrite andb_true_iff, Z.eqb_eq, Z.gtb_lt. change (15 * 60) with 900.
  split.
  - intros [M P]. split; [lia|]. exists (n / 900).
    pose proof (Z.div_mod n 900 ltac:(lia)). lia.
  - intros [P [k ->]]. split; [|lia].
    rewrite Z.mul_comm. apply Z.mod_mul. lia.
Qed.

(** ** Pause and resume *)

Lemma update_quote_frame (quotes : list string) (pick : nat) (w : World) :
  app_logic (update_quote quotes pick w) = app_logic w /\
  timers (update_quote quotes pick w) = timers w /\
  target_disabled (page (update_quote quotes pick w))
  = target_disabled (page w) /\
  tasks (update_quote quotes pick w) = tasks w /\
  current_focus_label (page (update_quote quotes pick w))
  = current_focus_label (page w).
Proof. unfold update_quote. destruct quotes; repeat split. Qed.

(** Starting from idle: the handler runs the first pass of the loop. *)
Lemma start_work_idle (quotes : list string) (now : Z) (pick : nat)
    (w : World) :
  working w = false ->
  let o := start_work quotes now pick w in
  working (final o) = true /\ seconds (final o) = seconds w + 1 /\
  conn (app_logic (final o)) = conn (app_logic w) /\
  target (final o) = target w /\
  target_disabled (page (final o)) = true /\
  tasks (final o) = tasks w /\
  (target w <> 0 ->
     uncaught o = None /\
     signals o = if check_in_due (seconds w + 1)
                 then [CheckIn (seconds w + 1)] else []).
Proof.
  intros H. cbn zeta. unfold start_work. unfold working in H. rewrite H.
  cbn [negb]. set (w' := on_page _ _).
  destruct (update_quote_frame quotes pick
              (on_app (with_start_time (Some now))
                 (on_app (with_is_working true) w))) as (UA & _ & _ & UT & _).
  assert (Hw : working w' = true).
  { subst w'. unfold working. cbn. now rewrite UA. }
  assert (Hs : seconds w' = seconds w).
  { subst w'. unfold seconds. cbn. now rewrite UA. }
  assert (Ht : target w' = target w).
  { subst w'. unfold target. cbn. now rewrite UA. }
  assert (Hc : conn (app_logic w') = conn (app_logic w)).
  { subst w'. cbn. now rewrite UA. }
  assert (Hd : target_disabled (page w') = true) by reflexivity.
  assert (Hk : tasks w' = tasks w).
  { subst w'. unfold tasks in *. cbn. exact UT. }
  clearbody w'. unfold run_timer. unfold working in Hw. rewrite Hw.
  pose proof (loop_body_seconds w') as LS.
  pose proof (loop_body_frame w') as (LW & LT & LC & LD & _ & LK & _).
  assert (LO : target w <> 0 ->
               uncaught (loop_body w') = None /\
               signals (loop_body w')
               = if check_in_due (seconds w + 1)
                 then [CheckIn (seconds w + 1)] else []).
  { intros T. rewrite <- Hs. apply loop_body_ok. now rewrite Ht. }
  unfold working, seconds, target, tasks in *.
  destruct (loop_body w') as [f [x|] sg]; simpl in *.
  - do 6 (split; [congruence || lia|]).
    intros T. destruct (LO T) as [? ?]. discriminate.
  - do 6 (split; [congruence || lia|]).
    intros T. destruct (LO T) as [? ?]. split; congruence.
Qed.

(** C4, as the code has it: stopping keeps the counted seconds; starting
    again does not reset them, but the handler enters the timer loop before
    it first suspends, so the count is one more than before the pause. *)
Theorem pause_resume_keeps_time (quotes : list string) (now1 now2 : Z)
    (pick1 pick2 : nat) (w : World) :
  working w = true ->
  let w1 := final (start_work quotes now1 pick1 w) in
  let w2 := final (start_work quotes now2 pick2 w1) in
  working w1 = false /\ seconds w1 = seconds w /\
  working w2 = true /\ seconds w2 = seconds w + 1.
Proof.
  intros H. cbn zeta.
  destruct (start_work_working quotes now1 pick1 w H)
    as (_ & _ & W1 & _ & _ & _ & S1 & _).
  split; [exact W1|]. split; [exact S1|].
  destruct (start_work_idle quotes now2 pick2 _ W1) as (W2 & S2 & _).
  split; [exact W2|]. rewrite S2, S1. reflexivity.
Qed.

Lemma pause_resume_keeps_time_witness :
  working started_world = true /\
  seconds (final (start_work [] 20 0
                    (final (start_work [] 10 0 started_world))))
  = seconds started_world + 1.
Proof.
  split; [reflexivity|].
  apply (pause_resume_keeps_time [] 10 20 0 0 started_world).
  reflexivity.
Defined.

(** C4 as stated fails: after a pause and a resume the count is 2, not the
    1 it was when the pause began. *)
Lemma pause_resume_changes_time :
  working started_world = true /\
  seconds started_world = 1 /\
  working (final (start_work [] 10 0 started_world)) = false /\
  seconds (final (start_work [] 10 0 started_world)) = 1 /\
  working (final (start_work [] 20 0
                    (final (start_work [] 10 0 started_world)))) = true /\
  seconds (final (start_work [] 20 0
                    (final (start_work [] 10 0 started_world)))) = 2 /\
  seconds (final (start_work [] 20 0
                    (final (start_work [] 10 0 started_world))))
  <> seconds started_world.
Proof. repeat split; try reflexivity. vm_compute. discriminate. Qed.

(** ** The daily target *)

Lemma in_options_spec (v : string) :
  in_options v = true <-> In v target_options.
Proof.
  unfold in_options. rewrite existsb_exists. split.
  - intros [x [Hx E]]. apply String.eqb_eq in E. now subst.
  - intros H. exists v. split; [exact H|]. apply String.eqb_refl.
Qed.

Lemma option_is_hours (v : string) :
  In v target_options -> exists n, py_int v = Some n /\ In n target_hours.
Proof.
  unfold target_options, target_hours. simpl.
  intros [<-|[<-|[<-|[<-|[<-|[]]]]]]; eexists; (split; [reflexivity|]);
    simpl; tauto.
Qed.




(** ** What one event does *)

Lemma handle_yes_frame (now : Z) (w : World) :
  seconds (handle_yes now w) = seconds w /\
  working (handle_yes now w) = working w /\
  target (handle_yes now w) = target w /\
  target_disabled (page (handle_yes now w)) = target_disabled (page w).
Proof. repeat split. Qed.

Lemma handle_no_frame (now : Z) (w : World) :
  seconds (handle_no now w) = seconds w /\
  working (handle_no now w) = working w /\
  target (handle_no now w) = target w /\
  target_disabled (page (handle_no now w)) = target_disabled (page w).
Proof. repeat split. Qed.

Lemma add_task_frame (w : World) :
  app_logic (add_task w) = app_logic w /\
  target_disabled (page (add_task w)) = target_disabled (page w).
Proof.
  unfold add_task. destruct (negb (truthy (task_input (page w))));
    split; reflexivity.
Qed.

Lemma target_not_zero (w : World) : valid w -> target w <> 0.
Proof.
  intros [H _]. unfold target_hours in H. simpl in H.
  intros E. rewrite E in H. intuition discriminate.
Qed.

(** From a valid world no handler raises, validity is kept, and the counter
    moves only where the loop body ran: on a wake-up of a sleeping timer
    while working, and inside the start handler. *)
Lemma deliver_effect (quotes : list string) (e : Event) (w : World) :
  valid w ->
  let o := deliver quotes e w in
  uncaught o = None /\ valid (final o) /\
  (no_tick w o \/
   one_tick w o /\
   ((e = TimerWake /\ working w = true /\ timers w <> O) \/
    (exists now pick, e = ClickStart now pick /\ working w = false))).
Proof.
  intros V. pose proof (target_not_zero w V) as NZ. destruct V as [VT VD].
  cbn zeta. unfold one_tick, no_tick. destruct e; cbn [deliver].
  - (* ClickStart *)
    destruct (working w) eqn:W.
    + destruct (start_work_working quotes now pick w W)
        as (U & Sg & W' & _ & _ & _ & S' & _).
      split; [exact U|]. split.
      * unfold valid. unfold start_work. unfold working in W. rewrite W.
        split; [exact VT|reflexivity].
      * left. split; assumption.
    + destruct (start_work_idle quotes now pick w W)
        as (W' & S' & _ & T' & D' & _ & O').
      destruct (O' NZ) as [U Sg].
      split; [exact U|]. split.
      * unfold valid. rewrite T', D', W'. split; [exact VT|reflexivity].
      * right. split; [repeat split; assumption|]. right. eauto.
  - (* TimerWake *)
    destruct (timers w) eqn:Tm.
    + split; [reflexivity|]. split; [split; assumption|].
      left. split; reflexivity.
    + unfold run_timer_resume. destruct (is_working (app_logic w)) eqn:W.
      * destruct (loop_body_ok w NZ) as [U Sg].
        pose proof (loop_body_seconds w) as LS.
        pose proof (loop_body_frame w) as (LW & LT & _ & LD & _).
        rewrite U. cbv iota. split; [exact U|]. split.
        -- unfold valid. rewrite LT, LD, LW. split; assumption.
        -- right. split.
           ++ repeat split; try assumption. rewrite LW. exact W.
           ++ left. repeat split; [exact W|discriminate].
      * split; [reflexivity|]. split; [split; assumption|].
        left. split; reflexivity.
  - (* SelectTarget *)
    destruct (target_disabled (page w) || negb (in_options v)) eqn:G.
    + split; [reflexivity|]. split; [split; assumption|].
      left. split; reflexivity.
    + apply orb_false_iff in G. destruct G as [_ G].
      apply negb_false_iff, in_options_spec in G.
      destruct (option_is_hours v G) as (n & P & Hn).
      unfold on_target_change. cbn. rewrite P.
      split; [reflexivity|]. split; [split; assumption|].
      left. split; reflexivity.
  - split; [reflexivity|]. split; [split; assumption|].
    left. split; reflexivity.
  - destruct (add_task_frame w) as [A D].
    split; [reflexivity|]. split.
    + unfold valid, target, working. cbn. rewrite A, D. split; assumption.
    + left. unfold seconds. cbn. rewrite A. split; reflexivity.
  - destruct (find_row c w); (split; [reflexivity|]);
      (split; [split; assumption|]); left; split; reflexivity.
  - destruct (find_row c w) as [r|] eqn:F.
    + destruct (list_remove_found _ _ _ F) as [l' R].
      unfold delete_task. rewrite R.
      split; [reflexivity|]. split; [split; assumption|].
      left. split; reflexivity.
    + split; [reflexivity|]. split; [split; assumption|].
      left. split; reflexivity.
  - split; [reflexivity|]. split; [split; assumption|].
    left. split; reflexivity.
  - destruct (dialog_open (page w)); (split; [reflexivity|]);
      (split; [split; assumption|]); left; split; reflexivity.
  - destruct (dialog_open (page w)); (split; [reflexivity|]);
      (split; [split; assumption|]); left; split; reflexivity.
Qed.

Lemma deliver_seconds (quotes : list string) (e : Event) (w : World) :
  let o := deliver quotes e w in
  seconds (final o) = seconds w \/
  seconds (final o) = seconds w + 1 /\ working (final o) = true /\
  ((e = TimerWake /\ working w = true /\ timers w <> O) \/
   (exists now pick, e = ClickStart now pick /\ working w = false)).
Proof.
  cbn zeta. destruct e; cbn [deliver]; try (left; reflexivity).
  - destruct (working w) eqn:W.
    + left. now apply start_work_working.
    + right. destruct (start_work_idle quotes now pick w W) as (W' & S' & _).
      repeat split; try assumption. right. eauto.
  - destruct (timers w) eqn:Tm; [left; reflexivity|].
    unfold run_timer_resume. destruct (is_working (app_logic w)) eqn:W;
      [|left; reflexivity].
    right. pose proof (loop_body_seconds w) as LS.
    pose proof (loop_body_frame w) as (LW & _).
    assert (Wf : working (final (loop_body w)) = true)
      by (rewrite LW; exact W).
    destruct (uncaught (loop_body w)); cbn [final];
      (split; [exact LS|]); (split; [exact Wf|]);
      left; repeat split; try exact W; discriminate.
  - left. destruct (_ || _); [reflexivity|].
    unfold on_target_change. destruct (py_int _); reflexivity.
  - left. unfold seconds. cbn. now rewrite (proj1 (add_task_frame w)).
  - left. destruct (find_row c w); reflexivity.
  - left. destruct (find_row c w); [|reflexivity].
    unfold delete_task. destruct (list_remove _ _); reflexivity.
  - left. destruct (dialog_open (page w)); reflexivity.
  - left. destruct (dialog_open (page w)); reflexivity.
Qed.

Lemma run_cons (quotes : list string) (e : Event) (es : list Event)
    (w : World) :
  run quotes (e :: es) w
  = (fst (run quotes es (final (deliver quotes e w))),
     (signals (deliver quotes e w)
      ++ snd (run quotes es (final (deliver quotes e w))))%list).
Proof. simpl. destruct (run quotes es _). reflexivity. Qed.

Lemma run_seconds_mono (quotes : list string) (es : list Event) (w : World) :
  seconds w <= seconds (fst (run quotes es w)).
Proof.
  revert w; induction es as [|e es IH]; intros w.
  - simpl. lia.
  - rewrite run_cons. cbn [fst].
    specialize (IH (final (deliver quotes e w))).
    destruct (deliver_seconds quotes e w) as [E|(E & _)]; lia.
Qed.

(** C3, as the code has it: over any sequence of events the counted
    seconds never decrease.  An event moves them only by one pass of the
    timer loop, which adds one and runs with [is_working] true: on the
    wake-up of a sleeping timer while working, or inside the start handler
    when work begins.  Every other event, stopping included, leaves them
    as they are. *)
Theorem seconds_only_grow_by_ticks (quotes : list string)
    (es : list Event) (e : Event) (w : World) :
  seconds w <= seconds (fst (run quotes es w)) /\
  seconds w <= seconds (final (deliver quotes e w)) /\
  (seconds (final (deliver quotes e w)) <> seconds w ->
     seconds (final (deliver quotes e w)) = seconds w + 1 /\
     working (final (deliver quotes e w)) = true /\
     ((e = TimerWake /\ working w = true) \/
      (exists now pick, e = ClickStart now pick /\ working w = false))) /\
  (working w = false -> (forall now pick, e <> ClickStart now pick) ->
     seconds (final (deliver quotes e w)) = seconds w).
Proof.
  split; [apply run_seconds_mono|].
  pose proof (deliver_seconds quotes e w) as D. cbn zeta in D.
  split; [|split].
  - destruct D as [E|(E & _)]; lia.
  - intros N. destruct D as [E|(E & W & [(-> & Ww & _)|C])];
      [contradiction| |]; repeat split; auto.
  - intros Ww Ne. destruct D as [E|(_ & _ & [(_ & Ww' & _)|C])].
    + exact E.
    + congruence.
    + destruct C as (now & pick & -> & _). now contradiction (Ne now pick).
Qed.

Lemma seconds_only_grow_by_ticks_witness :
  seconds (final (deliver [] TimerWake started_world))
  <> seconds started_world /\
  seconds (final (deliver [] TimerWake started_world))
  = seconds started_world + 1.
Proof.
  split; [vm_compute; discriminate|].
  apply (seconds_only_grow_by_ticks [] [] TimerWake started_world).
  vm_compute; discriminate.
Defined.

(** C3 as stated fails: the start click is not a tick of the timer, yet it
    moves the counter from 0 to 1. *)
Lemma toggle_changes_seconds :
  seconds (main_init [] None 0) = 0 /\
  working (main_init [] None 0) = false /\
  seconds (final (deliver [] (ClickStart 0 0)
                    (main_init [] None 0))) = 1 /\
  seconds (final (deliver [] (ClickStart 0 0)
                    (main_init [] None 0)))
  <> seconds (main_init [] None 0).
Proof. repeat split; try reflexivity. vm_compute. discriminate. Qed.

(** ** Check-in signals along a run *)

Lemma crossed_nil (a b : Z) : b <= a -> crossed a b = [].
Proof.
  intros H. unfold crossed. replace (Z.to_nat (b - a)) with O by lia.
  reflexivity.
Qed.

Lemma crossed_step (a b : Z) :
  a < b -> crossed a b = a + 1 :: crossed (a + 1) b.
Proof.
  intros H. unfold crossed.
  replace (Z.to_nat (b - a)) with (S (Z.to_nat (b - (a + 1)))) by lia.
  cbn [seq map]. f_equal.
  rewrite <- seq_shift, map_map. apply map_ext. intros k. lia.
Qed.

Lemma crossed_spec (a b n : Z) : In n (crossed a b) <-> a < n <= b.
Proof.
  unfold crossed. rewrite in_map_iff. split.
  - intros (k & <- & Hk). apply in_seq in Hk. lia.
  - intros H. exists (Z.to_nat (n - a)). split; [lia|].
    apply in_seq. lia.
Qed.

Lemma crossed_NoDup (a b : Z) : NoDup (crossed a b).
Proof.
  unfold crossed. apply Finite.Injective_map_NoDup.
  - intros x y E. lia.
  - apply seq_NoDup.
Qed.

Lemma run_valid (quotes : list string) (es : list Event) (w : World) :
  valid w -> valid (fst (run quotes es w)).
Proof.
  revert w; induction es as [|e es IH]; intros w V; [exact V|].
  rewrite run_cons. cbn [fst]. apply IH.
  now apply deliver_effect.
Qed.

Lemma run_signals (quotes : list string) (es : list Event) (w : World) :
  valid w ->
  snd (run quotes es w)
  = map CheckIn
      (filter check_in_due
         (crossed (seconds w) (seconds (fst (run quotes es w))))).
Proof.
  revert w; induction es as [|e es IH]; intros w V.
  - simpl. rewrite crossed_nil by lia. reflexivity.
  - rewrite run_cons. cbn [fst snd].
    destruct (deliver_effect quotes e w V) as (_ & V' & D).
    cbn zeta in V', D. rewrite (IH _ V').
    pose proof (run_seconds_mono quotes es (final (deliver quotes e w))) as M.
    destruct D as [[E Sg]|[(E & _ & Sg) _]]; rewrite Sg.
    + rewrite E. reflexivity.
    + rewrite (crossed_step (seconds w)) by lia. cbn [filter].
      rewrite E. destruct (check_in_due (seconds w + 1)); reflexivity.
Qed.

(** C1: a pass of the timer loop opens the prompt exactly when the count
    it has just incremented is a positive multiple of 900.  Along any run,
    whatever the user does in between (pauses included), the prompts
    raised are exactly the positive multiples of 900 among the values the
    counter has crossed, each once and in order; an event that does not
    move the counter raises none. *)
Theorem check_in_once_per_multiple (quotes : list string)
    (es : list Event) (e : Event) (w : World) :
  valid w ->
  (forall n, check_in_due n = true <-> 0 < n /\ exists k, n = 900 * k) /\
  signals (loop_body w)
  = (if check_in_due (seconds w + 1) then [CheckIn (seconds w + 1)] else []) /\
  (check_in_due (seconds w + 1) = true ->
     dialog_open (page (final (loop_body w))) = true) /\
  (check_in_due (seconds w + 1) = false ->
     dialog_open (page (final (loop_body w))) = dialog_open (page w)) /\
  (seconds (final (deliver quotes e w)) = seconds w ->
     signals (deliver quotes e w) = []) /\
  snd (run quotes es w)
  = map CheckIn
      (filter check_in_due
         (crossed (seconds w) (seconds (fst (run quotes es w))))) /\
  NoDup (snd (run quotes es w)) /\
  (forall n, In (CheckIn n) (snd (run quotes es w)) <->
     (seconds w < n <= seconds (fst (run quotes es w)) /\
      0 < n /\ exists k, n = 900 * k)).
Proof.
  intros V. pose proof (target_not_zero w V) as NZ.
  pose proof (run_signals quotes es w V) as RS.
  split; [exact check_in_due_spec|].
  split; [apply (loop_body_ok w NZ)|].
  split; [|split; [|split; [|split; [exact RS|split]]]].
  - intros D. unfold loop_body, seconds, target in *. cbn.
    rewrite true_div_some by lia. rewrite D. reflexivity.
  - intros D. unfold loop_body, seconds, target in *. cbn.
    rewrite true_div_some by lia. rewrite D. reflexivity.
  - intros E. destruct (deliver_effect quotes e w V) as (_ & _ & D).
    destruct D as [[_ Sg]|[(E' & _) _]]; [exact Sg|]. cbn zeta in E'. lia.
  - rewrite RS. apply Finite.Injective_map_NoDup.
    + intros x y H. now injection H.
    + apply NoDup_filter, crossed_NoDup.
  - intros n. rewrite RS, in_map_iff. split.
    + intros (m & Hm & I). injection Hm as ->.
      apply filter_In in I. destruct I as [I D].
      apply crossed_spec in I. apply check_in_due_spec in D. tauto.
    + intros (I & D). exists n. split; [reflexivity|].
      apply filter_In. split; [now apply crossed_spec|].
      now apply check_in_due_spec.
Qed.

Lemma main_init_valid (quotes : list string) (file : option Store)
    (pick : nat) :
  valid (main_init quotes file pick).
Proof.
  unfold valid, main_init, target, working.
  destruct (update_quote_frame quotes pick
    {| app_logic := DisciplineApp_init file;
       page := {| target_value := "10";
                target_disabled := false;
                timer_text := "00:00:00";
                current_focus_label := focus_prefix ++ "General Work";
                status_text := "هل أنت مستعد للبدء؟";
                progress_bar := 0%Q;
                task_input := "";
                tasks_column := [];
                quote_text := "توكل على الله";
                note_input := "";
                btn_label_control := "بدء يوم العمل";
                start_btn_style := GREEN_700;
                dialog_open := false;
                snack_bar := None |};
       timers := 0;
       fresh := 0 |}) as (A & _ & D & _).
  rewrite A, D. split; [|reflexivity]. simpl. tauto.
Qed.

Lemma near_check_in_valid : valid near_check_in.
Proof. split; [simpl; tauto|reflexivity]. Defined.

Lemma check_in_once_per_multiple_witness :
  valid near_check_in /\
  snd (run [] [TimerWake; TimerWake; ClickStart 5 0; TimerWake;
               ClickStart 9 0] near_check_in)
  = map CheckIn
      (filter check_in_due
         (crossed (seconds near_check_in)
            (seconds (fst (run [] [TimerWake; TimerWake; ClickStart 5 0;
                                   TimerWake; ClickStart 9 0]
                             near_check_in))))).
Proof.
  split; [exact near_check_in_valid|].
  apply (check_in_once_per_multiple [] _ TimerWake near_check_in
           near_check_in_valid).
Defined.

(** ** The tick: counter, progress, display *)

Lemma hms_as_specified (e : Z) :
  e / 60 / 60 = e / 3600 /\ (e / 60) mod 60 = (e mod 3600) / 60.
Proof.
  pose proof (Z.div_mod e 60 ltac:(lia)) as E1.
  pose proof (Z.mod_pos_bound e 60 ltac:(lia)) as B1.
  pose proof (Z.div_mod (e / 60) 60 ltac:(lia)) as E2.
  pose proof (Z.mod_pos_bound (e / 60) 60 ltac:(lia)) as B2.
  assert (H : e / 3600 = e / 60 / 60).
  { symmetry. apply (Z.div_unique e 3600 _ (60 * ((e / 60) mod 60) + e mod 60));
      lia. }
  assert (M : e mod 3600 = 60 * ((e / 60) mod 60) + e mod 60).
  { symmetry. apply (Z.mod_unique e 3600 (e / 60 / 60)); lia. }
  split; [now symmetry|].
  rewrite M. apply (Z.div_unique _ 60 _ (e mod 60)); lia.
Qed.

Lemma format_02d_min_width (n : Z) : (2 <= String.length (format_02d n))%nat.
Proof.
  unfold format_02d.
  destruct (Nat.ltb_spec (String.length (NilZero.string_of_int (Z.to_int n))) 2)
    as [L|L]; [|exact L].
  assert (N : (1 <= String.length (NilZero.string_of_int (Z.to_int n)))%nat).
  { destruct (Z.to_int n) as [u|u]; destruct u; simpl; lia. }
  simpl. lia.
Qed.

Lemma format_02d_two_digits (n : Z) :
  0 <= n < 100 -> String.length (format_02d n) = 2%nat.
Proof.
  intros H.
  assert (A : forallb (fun k => Nat.eqb (String.length
                                  (format_02d (Z.of_nat k))) 2)
                (seq 0 100) = true) by (vm_compute; reflexivity).
  rewrite forallb_forall in A.
  specialize (A (Z.to_nat n)). rewrite Z2Nat.id in A by lia.
  apply Nat.eqb_eq, A, in_seq. lia.
Qed.

(** C2: one pass of the loop while working adds exactly one second, sets
    the progress to the smaller of elapsed / (target * 3600) and 1 (so it
    is never above 1), and shows the time as hours, minutes and seconds of
    the new count: hours = elapsed // 3600, minutes = (elapsed % 3600) //
    60, seconds = elapsed % 60, minutes and seconds on two digits, hours on
    at least two.  3725 shows 01:02:05 and 36000 shows 10:00:00. *)
Theorem tick_effect (quotes : list string) (w : World) :
  working w = true -> In (target w) target_hours ->
  let o := loop_body w in
  let elapsed := seconds w + 1 in
  uncaught o = None /\
  (timers w <> O -> deliver quotes TimerWake w = o) /\
  seconds (final o) = elapsed /\
  progress_bar (page (final o))
  = Qmin (inject_Z elapsed / inject_Z (target w * 3600)) 1 /\
  (progress_bar (page (final o)) <= 1)%Q /\
  timer_text (page (final o)) = display_of elapsed /\
  (2 <= String.length (format_02d (elapsed / 3600)))%nat /\
  String.length (format_02d ((elapsed mod 3600) / 60)) = 2%nat /\
  String.length (format_02d (elapsed mod 60)) = 2%nat /\
  (elapsed = 3725 -> timer_text (page (final o)) = "01:02:05") /\
  (elapsed = 36000 -> timer_text (page (final o)) = "10:00:00").
Proof.
  intros W T. cbn zeta.
  assert (NZ : target w <> 0).
  { unfold target_hours in T. simpl in T. lia. }
  destruct (loop_body_ok w NZ) as [U _].
  assert (P : progress_bar (page (final (loop_body w)))
              = Qmin (inject_Z (seconds w + 1)
                      / inject_Z (target w * 3600)) 1).
  { unfold loop_body, seconds, target in *. cbn.
    rewrite true_div_some by lia.
    destruct (check_in_due _); reflexivity. }
  assert (D : timer_text (page (final (loop_body w)))
              = display_of (seconds w + 1)).
  { unfold display_of.
    destruct (hms_as_specified (seconds w + 1)) as [<- <-].
    unfold loop_body, seconds, target in *. cbn.
    rewrite true_div_some by lia.
    destruct (check_in_due _); reflexivity. }
  split; [exact U|]. split.
  { intros Tm. cbn [deliver]. destruct (timers w); [contradiction|].
    unfold run_timer_resume. unfold working in W. rewrite W, U.
    reflexivity. }
  split; [apply loop_body_seconds|].
  split; [exact P|]. split; [rewrite P; apply Q.le_min_r|].
  split; [exact D|].
  split; [apply format_02d_min_width|].
  split.
  { apply format_02d_two_digits.
    pose proof (Z.mod_pos_bound (seconds w + 1) 3600 ltac:(lia)).
    split; [apply Z.div_pos; lia|].
    apply Z.div_lt_upper_bound; lia. }
  split.
  { apply format_02d_two_digits.
    pose proof (Z.mod_pos_bound (seconds w + 1) 60 ltac:(lia)). lia. }
  split; intros E; rewrite D, E; reflexivity.
Qed.

Lemma tick_effect_witness :
  working (on_app (with_worked_seconds 3724) started_world) = true /\
  In (target (on_app (with_worked_seconds 3724) started_world)) target_hours /\
  timer_text (page (final (loop_body
     (on_app (with_worked_seconds 3724) started_world)))) = "01:02:05".
Proof.
  split; [reflexivity|]. split; [simpl; tauto|].
  apply (tick_effect [] (on_app (with_worked_seconds 3724) started_world)).
  - reflexivity.
  - simpl; tauto.
  - reflexivity.
Defined.

(** ** The activity log *)

Lemma max_rowid_ge (l : list LogEntry) (x : LogEntry) :
  In x l -> entry_id x <= max_rowid l.
Proof.
  induction l as [|y t IH]; simpl; [tauto|].
  intros [->|H]; [lia|]. specialize (IH H). lia.
Qed.

Lemma next_rowid_above (db : Store) (x : LogEntry) :
  In x (hourly_logs db) -> entry_id x < next_rowid db.
Proof.
  intros H. apply max_rowid_ge in H. unfold next_rowid. lia.
Qed.

Lemma next_rowid_grows (ts : Z) (act : string) (score : Z) (db : Store) :
  next_rowid db < next_rowid (insert_log ts act score db).
Proof. unfold next_rowid at 2. simpl. lia. Qed.

Lemma ordered_snoc (l : list LogEntry) (e : LogEntry) :
  ordered_by_id l -> (forall x, In x l -> entry_id x < entry_id e) ->
  ordered_by_id (l ++ [e]).
Proof.
  unfold ordered_by_id. induction l as [|y t IH]; intros S B; simpl.
  - repeat constructor.
  - apply StronglySorted_inv in S. destruct S as [S F]. constructor.
    + apply IH; [exact S|]. intros x Hx. apply B. now right.
    + apply Forall_app. split; [exact F|].
      constructor; [|constructor]. apply B. now left.
Qed.

Lemma ordered_scan_unique (l1 l2 : list LogEntry) :
  ordered_by_id l1 -> ordered_by_id l2 -> Permutation l1 l2 -> l1 = l2.
Proof.
  unfold ordered_by_id. revert l2.
  induction l1 as [|a t IH]; intros l2 S1 S2 P.
  - apply Permutation_nil in P. now subst.
  - destruct l2 as [|b u].
    + apply Permutation_sym, Permutation_nil in P. discriminate.
    + apply StronglySorted_inv in S1. destruct S1 as [S1 F1].
      apply StronglySorted_inv in S2. destruct S2 as [S2 F2].
      rewrite Forall_forall in F1, F2.
      assert (E : a = b).
      { assert (Ia : In a (b :: u))
          by (apply (Permutation_in _ P); now left).
        assert (Ib : In b (a :: t))
          by (apply (Permutation_in _ (Permutation_sym P)); now left).
        destruct Ia as [->|Ia]; [reflexivity|].
        destruct Ib as [->|Ib]; [reflexivity|].
        specialize (F1 _ Ib). specialize (F2 _ Ia). lia. }
      subst b. f_equal. apply IH; try assumption.
      now apply Permutation_cons_inv in P.
Qed.

Lemma deliver_appends (quotes : list string) (e : Event) (w : World) :
  exists l, logs (final (deliver quotes e w)) = (logs w ++ l)%list.
Proof.
  assert (Same : forall w', conn (app_logic w') = conn (app_logic w) ->
                   exists l, logs w' = (logs w ++ l)%list).
  { intros w' H. exists []. unfold logs. rewrite H. now rewrite app_nil_r. }
  destruct e; cbn [deliver]; try (apply Same; reflexivity).
  - apply Same. destruct (working w) eqn:W.
    + now apply start_work_working.
    + now apply start_work_idle.
  - apply Same. destruct (timers w); [reflexivity|].
    unfold run_timer_resume. destruct (is_working (app_logic w));
      [|reflexivity].
    pose proof (loop_body_frame w) as (_ & _ & C & _).
    destruct (uncaught (loop_body w)); exact C.
  - apply Same. destruct (_ || _); [reflexivity|].
    unfold on_target_change. destruct (py_int _); reflexivity.
  - apply Same. cbn. now rewrite (proj1 (add_task_frame w)).
  - apply Same. destruct (find_row c w); reflexivity.
  - apply Same. destruct (find_row c w); [|reflexivity].
    unfold delete_task. destruct (list_remove _ _); reflexivity.
  - destruct (dialog_open (page w)); [|apply Same; reflexivity].
    eexists. unfold logs. cbn. reflexivity.
  - destruct (dialog_open (page w)); [|apply Same; reflexivity].
    eexists. unfold logs. cbn. reflexivity.
Qed.

(** C6, as the code has it: a call of [log_activity] appends exactly one
    entry, with the clock reading of the call as timestamp and a key the
    store assigns, larger than every key in the table.  Of two calls in a
    row the second entry has the strictly larger key; its timestamp is the
    second clock reading, hence not smaller than the first's whenever the
    clock has not been set back between the calls.  No event removes or
    rewrites an entry (the table only grows at its end), and on a table
    whose keys increase in insertion order, which an insertion keeps, any
    listing of the rows by increasing key is the insertion order. *)
Theorem record_appends_in_order (quotes : list string) (a : DisciplineApp)
    (now1 now2 : Z) (act1 act2 : string) (score1 score2 : Z)
    (e : Event) (w : World) (scan : list LogEntry) :
  let a1 := log_activity now1 act1 score1 a in
  let a2 := log_activity now2 act2 score2 a1 in
  let e1 := mkLogEntry (next_rowid (conn a)) now1 act1 score1 in
  let e2 := mkLogEntry (next_rowid (conn a1)) now2 act2 score2 in
  hourly_logs (conn a1) = (hourly_logs (conn a) ++ [e1])%list /\
  hourly_logs (conn a2) = (hourly_logs (conn a) ++ [e1; e2])%list /\
  (forall x, In x (hourly_logs (conn a)) -> entry_id x < entry_id e1) /\
  entry_id e1 < entry_id e2 /\
  timestamp e1 = now1 /\ timestamp e2 = now2 /\
  (now1 <= now2 -> timestamp e1 <= timestamp e2) /\
  (exists l, logs (final (deliver quotes e w)) = (logs w ++ l)%list) /\
  (ordered_by_id (hourly_logs (conn a)) ->
     ordered_by_id (hourly_logs (conn a2)) /\
     (Permutation scan (hourly_logs (conn a2)) -> ordered_by_id scan ->
        scan = hourly_logs (conn a2))).
Proof.
  cbn zeta.
  assert (R2 : hourly_logs (conn (log_activity now2 act2 score2
                                    (log_activity now1 act1 score1 a)))
               = (hourly_logs (conn a)
                  ++ [mkLogEntry (next_rowid (conn a)) now1 act1 score1;
                      mkLogEntry (next_rowid (conn (log_activity now1 act1
                                                      score1 a)))
                                 now2 act2 score2])%list).
  { cbn. rewrite <- app_assoc. reflexivity. }
  split; [reflexivity|]. split; [exact R2|].
  split; [intros x; apply next_rowid_above|].
  split; [apply next_rowid_grows|].
  split; [reflexivity|]. split; [reflexivity|].
  split; [tauto|]. split; [apply deliver_appends|].
  intros O.
  assert (O2 : ordered_by_id
                 (hourly_logs (conn (log_activity now2 act2 score2
                                       (log_activity now1 act1 score1 a))))).
  { cbn. apply ordered_snoc; [apply ordered_snoc; [exact O|]|].
    - intros x. apply next_rowid_above.
    - intros x. apply (next_rowid_above (insert_log now1 act1 score1 (conn a))). }
  split; [exact O2|].
  intros P S. now apply ordered_scan_unique.
Qed.

Lemma record_appends_in_order_witness :
  3 <= 8 /\
  ordered_by_id (hourly_logs (conn (DisciplineApp_init None))) /\
  ordered_by_id
    (hourly_logs (conn (log_activity 8 "b" 0
                          (log_activity 3 "a" 1
                             (DisciplineApp_init None))))).
Proof.
  split; [lia|]. split; [constructor|].
  apply (record_appends_in_order [] (DisciplineApp_init None)
           3 8 "a" "b" 1 0 TimerWake started_world []).
  constructor.
Defined.

(** C6 as stated fails: the clock is set back between two calls and the
    second entry carries the earlier timestamp. *)
Lemma timestamps_follow_the_clock :
  hourly_logs (conn (log_activity 50 "b" 0
                       (log_activity 100 "a" 1
                          (DisciplineApp_init None))))
  = [mkLogEntry 1 100 "a" 1; mkLogEntry 2 50 "b" 0] /\
  ~ (timestamp (mkLogEntry 2 50 "b" 0) >= timestamp (mkLogEntry 1 100 "a" 1)).
Proof. split; [reflexivity|]. simpl. lia. Qed.

(** * Further properties of the handlers *)

(** ** Frames of the timer and of the start button *)

Lemma loop_body_untouched (w : World) :
  untouched_by_timer (final (loop_body w)) = untouched_by_timer w /\
  timers (final (loop_body w)) = timers w.
Proof.
  unfold untouched_by_timer, loop_body. cbn.
  destruct (true_div _ _); [|split; reflexivity].
  destruct (check_in_due _); split; reflexivity.
Qed.

Lemma timer_wake_untouched (quotes : list string) (w : World) :
  untouched_by_timer (final (deliver quotes TimerWake w))
  = untouched_by_timer w.
Proof.
  cbn [deliver]. destruct (timers w); [reflexivity|].
  unfold run_timer_resume. destruct (is_working (app_logic w));
    [|reflexivity].
  pose proof (loop_body_untouched w) as [U _].
  destruct (uncaught (loop_body w)); exact U.
Qed.

Lemma update_quote_untouched (quotes : list string) (pick : nat) (w : World) :
  untouched_by_start (update_quote quotes pick w) = untouched_by_start w /\
  app_logic (update_quote quotes pick w) = app_logic w /\
  timers (update_quote quotes pick w) = timers w.
Proof. unfold update_quote. destruct quotes; repeat split. Qed.

Lemma start_work_untouched (quotes : list string) (now : Z) (pick : nat)
    (w : World) :
  untouched_by_start (final (start_work quotes now pick w))
  = untouched_by_start w.
Proof.
  unfold start_work. destruct (is_working (app_logic w)); [reflexivity|].
  cbn [negb]. set (w' := on_page _ _).
  assert (U : untouched_by_start w' = untouched_by_start w).
  { subst w'.
    destruct (update_quote_untouched quotes pick
                (on_app (with_start_time (Some now))
                   (on_app (with_is_working true) w))) as (U & A & _).
    unfold untouched_by_start in *. cbn in *. rewrite A.
    injection U as -> -> -> -> -> -> _ _ _. reflexivity. }
  assert (W : is_working (app_logic w') = true).
  { subst w'. cbn.
    now rewrite (proj1 (proj2 (update_quote_untouched quotes pick _))). }
  clearbody w'. unfold run_timer. rewrite W.
  pose proof (loop_body_untouched w') as [L _].
  rewrite <- U. unfold untouched_by_timer, untouched_by_start in *.
  destruct (loop_body w') as [f [x|] sg]; cbn in *;
    injection L as -> _ -> _ -> -> _ -> _ _ -> -> _ _ -> ->; reflexivity.
Qed.

(** The face of the button after a click on it. *)
Lemma start_work_face (quotes : list string) (now : Z) (pick : nat)
    (w : World) :
  face_matches (final (start_work quotes now pick w)) /\
  working (final (start_work quotes now pick w)) = negb (working w).
Proof.
  destruct (working w) eqn:W.
  - unfold face_matches, working, start_work in *. rewrite W. cbn.
    repeat split.
  - destruct (start_work_idle quotes now pick w W) as (W' & _ & _ & _ & D & _).
    unfold face_matches. rewrite W', D. cbn [negb].
    repeat split.
    + unfold start_work. unfold working in W. rewrite W. cbn [negb].
      set (w' := on_page _ _).
      assert (B : btn_label_control (page w') = "توقف (استراحة)")
        by reflexivity.
      assert (Wk : is_working (app_logic w') = true).
      { subst w'. cbn.
        now rewrite (proj1 (proj2 (update_quote_untouched quotes pick _))). }
      clearbody w'. unfold run_timer. rewrite Wk.
      pose proof (loop_body_untouched w') as [L _].
      unfold untouched_by_timer in L.
      destruct (loop_body w') as [f [x|] sg]; cbn in *;
        injection L as _ _ _ _ _ _ _ _ -> _ _ _ _ _ _ _; exact B.
    + unfold start_work. unfold working in W. rewrite W. cbn [negb].
      set (w' := on_page _ _).
      assert (B : start_btn_style (page w') = RED_900) by reflexivity.
      assert (Wk : is_working (app_logic w') = true).
      { subst w'. cbn.
        now rewrite (proj1 (proj2 (update_quote_untouched quotes pick _))). }
      clearbody w'. unfold run_timer. rewrite Wk.
      pose proof (loop_body_untouched w') as [L _].
      unfold untouched_by_timer in L.
      destruct (loop_body w') as [f [x|] sg]; cbn in *;
        injection L as _ _ _ _ _ _ _ _ _ -> _ _ _ _ _ _; exact B.
Qed.

Lemma run_preserves (quotes : list string) (P : World -> Prop) :
  (forall e w, P w -> P (final (deliver quotes e w))) ->
  forall es w, P w -> P (fst (run quotes es w)).
Proof.
  intros Step es. induction es as [|e es IH]; intros w H; [exact H|].
  rewrite run_cons. cbn [fst]. apply IH, Step, H.
Qed.

(** Case analysis on an event, down to the branch its handler takes. *)
Ltac event_cases e w :=
  destruct e; cbn [deliver];
  [ | | destruct (target_disabled (page w) || negb (in_options _)) eqn:?;
        [|unfold on_target_change;
          cbn [page on_page target_value with_target_value];
          match goal with
          | |- context [match py_int ?v with _ => _ end] =>
              destruct (py_int v) eqn:?
          end]
  | | unfold add_task; destruct (negb (truthy (task_input (page w)))) eqn:?
  | destruct (find_row _ w) eqn:?
  | destruct (find_row _ w) eqn:?;
      [unfold delete_task; destruct (list_remove _ _) eqn:?|]
  | | destruct (dialog_open (page w)) eqn:?
  | destruct (dialog_open (page w)) eqn:? ].

Lemma deliver_focus_shown (quotes : list string) (e : Event) (w : World) :
  focus_shown w -> focus_shown (final (deliver quotes e w)).
Proof.
  unfold focus_shown. intros H. event_cases e w; try exact H.
  - pose proof (start_work_untouched quotes now pick w) as U.
    unfold untouched_by_start in U.
    injection U as _ -> _ _ _ _ _ _ ->. exact H.
  - pose proof (timer_wake_untouched quotes w) as U.
    unfold untouched_by_timer in U. cbn [deliver] in U.
    injection U as _ _ -> _ _ _ _ _ _ _ _ _ _ _ _ ->. exact H.
  - reflexivity.
Qed.

Lemma deliver_dropdown_agrees (quotes : list string) (e : Event) (w : World) :
  dropdown_agrees w -> dropdown_agrees (final (deliver quotes e w)).
Proof.
  unfold dropdown_agrees, target. intros H. event_cases e w; try exact H.
  - pose proof (start_work_untouched quotes now pick w) as U.
    unfold untouched_by_start in U.
    injection U as -> _ _ _ _ _ _ -> _. exact H.
  - pose proof (timer_wake_untouched quotes w) as U.
    unfold untouched_by_timer in U. cbn [deliver] in U.
    injection U as -> _ _ _ _ _ _ _ _ _ _ _ _ _ -> _. exact H.
  - cbn. match goal with G : _ || _ = false |- _ =>
      apply orb_false_iff in G; destruct G as [_ G];
      apply negb_false_iff, in_options_spec in G end.
    split; assumption.
  - match goal with G : _ || _ = false |- _ =>
      apply orb_false_iff in G; destruct G as [_ G];
      apply negb_false_iff, in_options_spec in G;
      destruct (option_is_hours _ G) as (n & P & _) end.
    congruence.
Qed.

Lemma deliver_face_matches (quotes : list string) (e : Event) (w : World) :
  face_matches w -> face_matches (final (deliver quotes e w)).
Proof.
  unfold face_matches, working. intros H. event_cases e w; try exact H.
  - apply start_work_face.
  - pose proof (timer_wake_untouched quotes w) as U.
    unfold untouched_by_timer in U. cbn [deliver] in U.
    injection U as _ -> _ _ _ _ _ _ -> -> _ _ -> _ _ _. exact H.
Qed.

Lemma main_init_focus_shown (quotes : list string) (file : option Store)
    (pick : nat) :
  focus_shown (main_init quotes file pick) /\
  dropdown_agrees (main_init quotes file pick) /\
  face_matches (main_init quotes file pick) /\
  rows_distinct (main_init quotes file pick).
Proof.
  unfold main_init, update_quote.
  destruct quotes; repeat split; simpl; try tauto; constructor.
Qed.

(** ** The task list *)

Lemma find_none_filter (c : nat) (l : list TaskRow) :
  find (fun r => Nat.eqb (ctl r) c) l = None -> filter (other_row c) l = l.
Proof.
  unfold other_row. induction l as [|x t IH]; simpl; [reflexivity|].
  destruct (Nat.eqb (ctl x) c); [discriminate|].
  intros H. simpl. f_equal. now apply IH.
Qed.

Lemma absent_filter (c : nat) (l : list TaskRow) :
  ~ In c (map ctl l) -> filter (other_row c) l = l.
Proof.
  intros H. apply find_none_filter.
  destruct (find _ l) as [r|] eqn:F; [|reflexivity].
  apply find_some in F. destruct F as [I E]. apply Nat.eqb_eq in E.
  exfalso. apply H. rewrite <- E. now apply in_map.
Qed.

Lemma list_remove_exact (c : nat) (l l' : list TaskRow) :
  NoDup (map ctl l) -> list_remove c l = Some l' ->
  l' = filter (other_row c) l.
Proof.
  revert l'. induction l as [|x t IH]; intros l' ND R; simpl in R.
  - discriminate.
  - simpl in ND. inversion ND as [|? ? Hx ND']; subst.
    simpl. unfold other_row at 1.
    destruct (Nat.eqb (ctl x) c) eqn:E.
    + injection R as <-. apply Nat.eqb_eq in E. subst c. simpl.
      symmetry. now apply absent_filter.
    + destruct (list_remove c t) as [t'|]; [|discriminate].
      injection R as <-. simpl. f_equal. now apply IH.
Qed.

Lemma filter_rows_distinct (c f : nat) (l : list TaskRow) :
  NoDup (map ctl l) -> Forall (fun r => (ctl r < f)%nat) l ->
  NoDup (map ctl (filter (other_row c) l)) /\
  Forall (fun r => (ctl r < f)%nat) (filter (other_row c) l).
Proof.
  intros ND F. split.
  - induction l as [|x t IH]; simpl; [constructor|].
    simpl in ND. inversion ND as [|? ? Hx ND']; subst.
    inversion F as [|? ? Fx Ft]; subst.
    destruct (other_row c x); simpl; [|now apply IH].
    constructor; [|now apply IH].
    intros I. apply Hx. apply in_map_iff in I.
    destruct I as (r & E & I). apply filter_In in I.
    rewrite <- E. apply in_map. tauto.
  - rewrite Forall_forall in *. intros r I. apply filter_In in I.
    apply F. tauto.
Qed.

Lemma add_task_rows (w : World) :
  task_input (page w) <> "" ->
  tasks (add_task w)
  = (tasks w ++ [mkRow (fresh w) (task_input (page w)) false])%list /\
  fresh (add_task w) = S (fresh w).
Proof.
  intros H. unfold add_task, tasks.
  destruct (truthy (task_input (page w))) eqn:T.
  - split; reflexivity.
  - apply truthy_false in T. contradiction.
Qed.

Lemma add_task_rows_distinct (w : World) :
  rows_distinct w -> rows_distinct (add_task w).
Proof.
  intros [ND F]. destruct (string_dec (task_input (page w)) "") as [E|N].
  - replace (add_task w) with w; [split; assumption|].
    unfold add_task. now rewrite E.
  - destruct (add_task_rows w N) as [T Fr]. unfold rows_distinct.
    rewrite T, Fr. split.
    + rewrite map_app. simpl. apply NoDup_app.
      * exact ND.
      * constructor; [simpl; tauto|constructor].
      * intros x I [<-|[]]. apply in_map_iff in I.
        destruct I as (r & E & I). rewrite Forall_forall in F.
        specialize (F r I). simpl in E. lia.
    + apply Forall_app. split.
      * eapply Forall_impl; [|exact F]. simpl. intros; lia.
      * constructor; [simpl; lia|constructor].
Qed.

Lemma deliver_rows_distinct (quotes : list string) (e : Event) (w : World) :
  rows_distinct w -> rows_distinct (final (deliver quotes e w)).
Proof.
  intros H. destruct e; cbn [deliver]; try exact H.
  - pose proof (start_work_untouched quotes now pick w) as U.
    unfold untouched_by_start in U. unfold rows_distinct, tasks in *.
    injection U as _ _ _ -> _ -> _ _ _. exact H.
  - pose proof (timer_wake_untouched quotes w) as U.
    unfold untouched_by_timer in U. cbn [deliver] in U.
    unfold rows_distinct, tasks in *.
    injection U as _ _ _ _ _ -> _ _ _ _ -> _ _ _ _ _. exact H.
  - destruct (_ || _); [exact H|].
    unfold on_target_change. destruct (py_int _); exact H.
  - now apply add_task_rows_distinct.
  - destruct (find_row c w); exact H.
  - destruct (find_row c w); [|exact H].
    unfold delete_task.
    destruct (list_remove c (tasks_column (page w))) as [l'|] eqn:R;
      [|exact H].
    destruct H as [ND F].
    rewrite (list_remove_exact _ _ _ ND R). unfold rows_distinct, tasks. cbn.
    now apply filter_rows_distinct.
  - destruct (dialog_open (page w)); exact H.
  - destruct (dialog_open (page w)); exact H.
Qed.

Lemma delete_removes_clicked_row_aux (quotes : list string) (c : nat)
    (w : World) :
  rows_distinct w ->
  uncaught (deliver quotes (ClickDelete c) w) = None /\
  tasks (final (deliver quotes (ClickDelete c) w))
  = filter (other_row c) (tasks w).
Proof.
  intros [ND F]. cbn [deliver].
  destruct (find_row c w) as [r|] eqn:Fr.
  - destruct (list_remove_found _ _ _ Fr) as [l' R].
    unfold delete_task. rewrite R.
    split; [reflexivity|]. exact (list_remove_exact _ _ _ ND R).
  - split; [reflexivity|]. symmetry. exact (find_none_filter _ _ Fr).
Qed.

(** X16: a click on the delete button of a row removes that row and no
    other, whatever the texts are; the order of the rest is kept. *)
Theorem delete_removes_clicked_row (quotes : list string) (c : nat)
    (w : World) :
  rows_distinct w ->
  let o := deliver quotes (ClickDelete c) w in
  uncaught o = None /\
  tasks (final o) = filter (other_row c) (tasks w) /\
  (forall r, In r (tasks (final o)) <-> In r (tasks w) /\ ctl r <> c) /\
  (find_row c w = None -> final o = w).
Proof.
  intros [ND F]. cbn zeta. cbn [deliver].
  assert (M : forall l, l = filter (other_row c) (tasks w) ->
            forall r, In r l <-> In r (tasks w) /\ ctl r <> c).
  { intros l -> r. rewrite filter_In. unfold other_row.
    rewrite negb_true_iff, Nat.eqb_neq. tauto. }
  destruct (find_row c w) as [r|] eqn:Fr.
  - destruct (list_remove_found _ _ _ Fr) as [l' R].
    unfold delete_task. rewrite R.
    pose proof (list_remove_exact _ _ _ ND R) as E.
    split; [reflexivity|]. split; [exact E|].
    split; [now apply M|]. discriminate.
  - pose proof (find_none_filter _ _ Fr) as E.
    split; [reflexivity|]. split; [now symmetry|].
    split; [apply M; now symmetry|]. reflexivity.
Qed.

(** X17: a task that is added and then deleted leaves the list as it was. *)
Theorem add_then_delete_restores (quotes : list string) (w : World) :
  rows_distinct w -> task_input (page w) <> "" ->
  let o := deliver quotes (ClickDelete (fresh w)) (add_task w) in
  uncaught o = None /\ tasks (final o) = tasks w.
Proof.
  intros D N. cbn zeta.
  destruct (delete_removes_clicked_row_aux quotes (fresh w) (add_task w)
              (add_task_rows_distinct w D)) as (U & T).
  split; [exact U|]. rewrite T.
  destruct (add_task_rows w N) as [-> _]. rewrite filter_app. simpl.
  unfold other_row at 2. simpl. rewrite Nat.eqb_refl. simpl.
  rewrite app_nil_r. apply absent_filter.
  intros I. apply in_map_iff in I. destruct I as (r & E & I).
  destruct D as [_ F]. rewrite Forall_forall in F. specialize (F r I). lia.
Qed.

(** ** The timers and the clock *)

Lemma wake_while_working (quotes : list string) (w : World) :
  valid w -> working w = true -> timers w <> O ->
  deliver quotes TimerWake w = loop_body w.
Proof.
  intros V W T. cbn [deliver]. destruct (timers w); [contradiction|].
  unfold run_timer_resume. unfold working in W. rewrite W.
  destruct (loop_body_ok w (target_not_zero w V)) as [U _].
  rewrite U. reflexivity.
Qed.

Lemma start_idle_timers (quotes : list string) (now : Z) (pick : nat)
    (w : World) :
  valid w -> working w = false ->
  timers (final (start_work quotes now pick w)) = S (timers w).
Proof.
  intros V W. unfold start_work. unfold working in W. rewrite W.
  cbn [negb]. set (w' := on_page _ _).
  destruct (update_quote_untouched quotes pick
              (on_app (with_start_time (Some now))
                 (on_app (with_is_working true) w))) as (_ & A & Tm).
  assert (Wk : is_working (app_logic w') = true)
    by (subst w'; cbn; now rewrite A).
  assert (Tg : target w' = target w)
    by (subst w'; unfold target; cbn; now rewrite A).
  assert (Tw : timers w' = timers w) by (subst w'; cbn; exact Tm).
  clearbody w'. unfold run_timer. rewrite Wk.
  assert (NZ : target w' <> 0)
    by (rewrite Tg; now apply target_not_zero).
  destruct (loop_body_ok w' NZ) as [U _].
  pose proof (loop_body_untouched w') as [_ L].
  rewrite U. cbn [final timers with_timers]. now rewrite L, Tw.
Qed.

Lemma deliver_timers (quotes : list string) (e : Event) (w : World) :
  valid w ->
  timers (final (deliver quotes e w))
  = match e with
    | ClickStart _ _ => if working w then timers w else S (timers w)
    | TimerWake => if working w then timers w else pred (timers w)
    | _ => timers w
    end.
Proof.
  intros V. event_cases e w; try reflexivity.
  - destruct (working w) eqn:W.
    + unfold start_work. unfold working in W. rewrite W. reflexivity.
    + now apply start_idle_timers.
  - destruct (working w) eqn:W.
    + destruct (timers w) eqn:T; [exact T|].
      rewrite <- T.
      assert (E : deliver quotes TimerWake w = loop_body w).
      { apply wake_while_working; [exact V|exact W|]. rewrite T. discriminate. }
      cbn [deliver] in E. rewrite T in E. rewrite E.
      apply loop_body_untouched.
    + destruct (timers w) eqn:T; [cbn; now rewrite T|].
      unfold run_timer_resume. unfold working in W. rewrite W. cbn.
      now rewrite T.
Qed.

Lemma deliver_working (quotes : list string) (e : Event) (w : World) :
  working (final (deliver quotes e w))
  = match e with
    | ClickStart _ _ => negb (working w)
    | _ => working w
    end.
Proof.
  event_cases e w; try reflexivity.
  - apply start_work_face.
  - pose proof (timer_wake_untouched quotes w) as U.
    unfold untouched_by_timer in U. cbn [deliver] in U. unfold working.
    injection U as _ _ _ _ _ _ _ _ _ _ _ _ -> _ _ _. reflexivity.
Qed.

Lemma deliver_timer_alive (quotes : list string) (e : Event) (w : World) :
  valid w /\ timer_alive w ->
  valid (final (deliver quotes e w)) /\
  timer_alive (final (deliver quotes e w)).
Proof.
  intros [V A].
  destruct (deliver_effect quotes e w V) as (_ & V' & _). cbn zeta in V'.
  split; [exact V'|]. unfold timer_alive in *.
  rewrite (deliver_timers quotes e w V), (deliver_working quotes e w).
  destruct e; try exact A.
  - destruct (working w); [discriminate|]. intros _. discriminate.
  - intros W. rewrite W. now apply A.
Qed.

Lemma loop_body_display (w : World) :
  timer_text (page (final (loop_body w))) = display_of (seconds w + 1).
Proof.
  unfold display_of.
  destruct (hms_as_specified (seconds w + 1)) as [<- <-].
  unfold loop_body, seconds. cbn.
  destruct (true_div _ _); [|reflexivity].
  destruct (check_in_due _); reflexivity.
Qed.

Lemma loop_body_clock_shown (w : World) :
  clock_shown w -> clock_shown (final (loop_body w)).
Proof.
  intros [_ P]. split.
  - rewrite loop_body_seconds. apply loop_body_display.
  - rewrite loop_body_seconds. lia.
Qed.

Lemma deliver_clock_shown (quotes : list string) (e : Event) (w : World) :
  clock_shown w -> clock_shown (final (deliver quotes e w)).
Proof.
  intros H. event_cases e w; try exact H.
  - unfold start_work. destruct (is_working (app_logic w)); [exact H|].
    cbn [negb]. set (w' := on_page _ _).
    destruct (update_quote_untouched quotes pick
                (on_app (with_start_time (Some now))
                   (on_app (with_is_working true) w))) as (_ & A & _).
    assert (C : clock_shown w').
    { subst w'. unfold clock_shown, seconds in *. cbn.
      rewrite A. cbn. unfold update_quote. destruct quotes; exact H. }
    assert (Wk : is_working (app_logic w') = true)
      by (subst w'; cbn; now rewrite A).
    clearbody w'. unfold run_timer. rewrite Wk.
    pose proof (loop_body_clock_shown w' C) as L.
    destruct (uncaught (loop_body w')); exact L.
  - destruct (timers w); [exact H|].
    unfold run_timer_resume. destruct (is_working (app_logic w)); [|exact H].
    pose proof (loop_body_clock_shown w H) as L.
    destruct (uncaught (loop_body w)); exact L.
Qed.

Lemma main_init_clock (quotes : list string) (file : option Store)
    (pick : nat) :
  clock_shown (main_init quotes file pick) /\
  timer_alive (main_init quotes file pick).
Proof.
  unfold main_init, update_quote, clock_shown, timer_alive.
  destruct quotes; (split; [split; [reflexivity|cbn; lia]|discriminate]).
Qed.

(** ** What holds of every world the program reaches *)

(** X1: in every world the program reaches the target is one of the five
    hours, so neither a pass of the timer loop nor the start handler, which
    runs one, raises: the division by target * 3600 is always defined. *)
Theorem reachable_timer_never_raises (quotes : list string)
    (file : option Store) (pick : nat) (es : list Event) (now : Z)
    (pick' : nat) :
  let w := fst (run quotes es (main_init quotes file pick)) in
  In (target w) target_hours /\
  uncaught (loop_body w) = None /\
  uncaught (run_timer_resume w) = None /\
  uncaught (start_work quotes now pick' w) = None.
Proof.
  cbn zeta.
  pose proof (run_valid quotes es _ (main_init_valid quotes file pick)) as V.
  pose proof (loop_body_ok _ (target_not_zero _ V)) as [U _].
  split; [exact (proj1 V)|]. split; [exact U|]. split.
  - unfold run_timer_resume. destruct (is_working _); [|reflexivity].
    rewrite U. exact U.
  - exact (proj1 (deliver_effect quotes (ClickStart now pick') _ V)).
Qed.

(** X2: the dropdown always shows one of its five options, and the target
    the application works with is the number that option reads as. *)
Theorem reachable_dropdown_agrees (quotes : list string)
    (file : option Store) (pick : nat) (es : list Event) :
  dropdown_agrees (fst (run quotes es (main_init quotes file pick))).
Proof.
  apply run_preserves; [apply deliver_dropdown_agrees|].
  apply main_init_focus_shown.
Qed.

(** X3: the start button always shows the action it will perform (stop
    on red while working, start on green while idle), and the dropdown is
    disabled exactly while working. *)
Theorem reachable_face_matches (quotes : list string) (file : option Store)
    (pick : nat) (es : list Event) :
  face_matches (fst (run quotes es (main_init quotes file pick))).
Proof.
  apply run_preserves; [apply deliver_face_matches|].
  apply main_init_focus_shown.
Qed.

(** X4: the focus label on the page always shows the focus the application
    object holds. *)
Theorem reachable_focus_shown (quotes : list string) (file : option Store)
    (pick : nat) (es : list Event) :
  focus_shown (fst (run quotes es (main_init quotes file pick))).
Proof.
  apply run_preserves; [apply deliver_focus_shown|].
  apply main_init_focus_shown.
Qed.

(** X5: the rows of the task list are always distinct objects, also when
    their texts are equal, and the next row to be made is a new one. *)
Theorem reachable_rows_distinct (quotes : list string) (file : option Store)
    (pick : nat) (es : list Event) :
  rows_distinct (fst (run quotes es (main_init quotes file pick))).
Proof.
  apply run_preserves; [apply deliver_rows_distinct|].
  apply main_init_focus_shown.
Qed.

(** X6: the timer text always shows the seconds counted, which are never
    negative. *)
Theorem reachable_clock_shown (quotes : list string) (file : option Store)
    (pick : nat) (es : list Event) :
  clock_shown (fst (run quotes es (main_init quotes file pick))).
Proof.
  apply run_preserves; [apply deliver_clock_shown|].
  apply main_init_clock.
Qed.

(** X7: while work is on there is always a timer loop asleep that will
    tick when it wakes. *)
Theorem reachable_timer_alive (quotes : list string) (file : option Store)
    (pick : nat) (es : list Event) :
  timer_alive (fst (run quotes es (main_init quotes file pick))).
Proof.
  apply (run_preserves quotes (fun w => valid w /\ timer_alive w)).
  - apply deliver_timer_alive.
  - split; [apply main_init_valid|apply main_init_clock].
Qed.

(** ** Ticks and timers *)

Lemma run_wakes (quotes : list string) (n : nat) (w : World) :
  valid w -> working w = true -> timers w <> O ->
  let w' := fst (run quotes (repeat TimerWake n) w) in
  seconds w' = seconds w + Z.of_nat n /\ working w' = true /\
  timers w' = timers w /\ valid w'.
Proof.
  revert w. induction n as [|n IH]; intros w V W T; cbn zeta.
  - simpl. repeat split; try assumption; try apply V. lia.
  - cbn [repeat]. rewrite run_cons. cbn [fst].
    rewrite (wake_while_working quotes w V W T).
    pose proof (loop_body_seconds w) as S1.
    pose proof (loop_body_untouched w) as [U T1].
    assert (W1 : working (final (loop_body w)) = true).
    { unfold untouched_by_timer in U. unfold working in *.
      injection U as _ _ _ _ _ _ _ _ _ _ _ _ -> _ _ _. exact W. }
    assert (V1 : valid (final (loop_body w))).
    { rewrite <- (wake_while_working quotes w V W T).
      now apply deliver_effect. }
    destruct (IH (final (loop_body w)) V1 W1 ltac:(now rewrite T1))
      as (S2 & W2 & T2 & V2).
    repeat split; try assumption; try apply V2; lia.
Qed.

(** X8: n wake-ups of the timer while working add exactly n seconds, none
    dropped and none counted twice, and the display follows. *)
Theorem wakes_add_seconds (quotes : list string) (n : nat) (w : World) :
  valid w -> working w = true -> timers w <> O ->
  let w' := fst (run quotes (repeat TimerWake n) w) in
  seconds w' = seconds w + Z.of_nat n /\ working w' = true /\
  (n <> O -> timer_text (page w') = display_of (seconds w + Z.of_nat n)).
Proof.
  intros V W T. cbn zeta.
  destruct (run_wakes quotes n w V W T) as (S1 & W1 & _ & _).
  split; [exact S1|]. split; [exact W1|].
  destruct n as [|n]; [contradiction|]. intros _.
  replace (S n) with (n + 1)%nat in * by lia.
  rewrite repeat_app in *. cbn [repeat app] in *.
  assert (R : forall es1 es2 x,
            fst (run quotes (es1 ++ es2) x)
            = fst (run quotes es2 (fst (run quotes es1 x)))).
  { induction es1 as [|a es1 IH1]; intros es2 x; [reflexivity|].
    cbn [app]. rewrite !run_cons. cbn [fst]. apply IH1. }
  rewrite R in *. set (w1 := fst (run quotes (repeat TimerWake n) w)) in *.
  destruct (run_wakes quotes n w V W T) as (S2 & W2 & T2 & V2).
  fold w1 in S2, W2, T2, V2.
  rewrite run_cons. cbn [fst run].
  rewrite (wake_while_working quotes w1 V2 W2 ltac:(now rewrite T2)).
  rewrite loop_body_display. f_equal. lia.
Qed.

(** X9: stopping does not end the sleeping timer loop; it ends only if it
    wakes while work is off.  A restart before that wake-up leaves it
    running beside the new loop, a restart after it does not. *)
Theorem restart_keeps_old_timer (quotes : list string) (now1 now2 : Z)
    (pick1 pick2 : nat) (w : World) :
  valid w -> working w = true ->
  timers (fst (run quotes [ClickStart now1 pick1; ClickStart now2 pick2] w))
  = S (timers w) /\
  timers (fst (run quotes [ClickStart now1 pick1; TimerWake;
                           ClickStart now2 pick2] w))
  = S (pred (timers w)) /\
  working (fst (run quotes [ClickStart now1 pick1; ClickStart now2 pick2] w))
  = true.
Proof.
  intros V W.
  pose proof (deliver_effect quotes (ClickStart now1 pick1) w V)
    as (_ & V1 & _). cbn zeta in V1.
  pose proof (deliver_timers quotes (ClickStart now1 pick1) w V) as T1.
  pose proof (deliver_working quotes (ClickStart now1 pick1) w) as W1.
  rewrite W in T1, W1. cbn [negb] in W1.
  set (w1 := final (deliver quotes (ClickStart now1 pick1) w)) in *.
  pose proof (deliver_effect quotes TimerWake w1 V1) as (_ & V2 & _).
  cbn zeta in V2.
  pose proof (deliver_timers quotes TimerWake w1 V1) as T2.
  assert (W2 : working (final (deliver quotes TimerWake w1)) = working w1)
    by exact (deliver_working quotes TimerWake w1).
  rewrite W1 in T2.
  set (w2 := final (deliver quotes TimerWake w1)) in *.
  pose proof (deliver_timers quotes (ClickStart now2 pick2) w1 V1) as T3.
  pose proof (deliver_working quotes (ClickStart now2 pick2) w1) as W3.
  pose proof (deliver_timers quotes (ClickStart now2 pick2) w2 V2) as T4.
  rewrite W1 in T3, W3. rewrite W2, W1 in T4.
  rewrite !run_cons. cbn [fst run]. fold w1. fold w2.
  rewrite T3, T4, T2, T1, W3. repeat split.
Qed.

(** ** Adding twice, the quote, the progress bar *)

(** X10: the add handler empties the input, so a second click on the add
    button right after the first adds nothing more. *)
Theorem add_task_twice (w : World) : add_task (add_task w) = add_task w.
Proof.
  unfold add_task at 2 3.
  destruct (truthy (task_input (page w))) eqn:T; cbn [negb].
  - unfold add_task. reflexivity.
  - unfold add_task. rewrite T. reflexivity.
Qed.

(** X11: starting work shows one of the quotations of the list between
    double quotes; with an empty list, and when the click stops the work,
    the quotation on the page stays as it is. *)
Theorem start_shows_a_quote (quotes : list string) (now : Z) (pick : nat)
    (w : World) :
  let w' := final (start_work quotes now pick w) in
  (working w = false -> quotes <> [] ->
     exists q, In q quotes /\
               quote_text (page w') = dquote ++ q ++ dquote) /\
  (working w = true \/ quotes = [] ->
     quote_text (page w') = quote_text (page w)).
Proof.
  cbn zeta.
  assert (K : forall v : World,
            is_working (app_logic v) = true ->
            quote_text (page (final (run_timer v))) = quote_text (page v)).
  { intros v Wv. unfold run_timer. rewrite Wv.
    pose proof (loop_body_untouched v) as [U _].
    unfold untouched_by_timer in U.
    destruct (loop_body v) as [f [x|] sg]; cbn in *;
      injection U as _ _ _ _ _ _ -> _ _ _ _ _ _ _ _ _; reflexivity. }
  assert (A : forall v, app_logic (update_quote quotes pick v) = app_logic v)
    by (intros v; apply update_quote_untouched).
  split.
  - intros W N. unfold start_work. unfold working in W. rewrite W.
    cbn [negb]. rewrite K by (cbn; now rewrite A). cbn.
    unfold update_quote. destruct quotes as [|q0 qs]; [contradiction|].
    cbn [page on_page quote_text with_quote_text].
    eexists. split; [|reflexivity].
    apply nth_In. apply Nat.mod_upper_bound. discriminate.
  - intros [W| ->].
    + unfold start_work. unfold working in W. rewrite W. reflexivity.
    + unfold start_work. destruct (is_working (app_logic w)); [reflexivity|].
      cbn [negb]. rewrite K by reflexivity. reflexivity.
Qed.

Lemma start_shows_a_quote_witness :
  working (main_init ["a"; "b"; "c"] None 0) = false /\
  ["a"; "b"; "c"] <> [] /\
  exists q, In q ["a"; "b"; "c"] /\
    quote_text (page (final (start_work ["a"; "b"; "c"] 0 7
                               (main_init ["a"; "b"; "c"] None 0))))
    = dquote ++ q ++ dquote.
Proof.
  split; [reflexivity|]. split; [discriminate|].
  apply (start_shows_a_quote ["a"; "b"; "c"] 0 7
           (main_init ["a"; "b"; "c"] None 0)).
  - reflexivity.
  - discriminate.
Defined.

Lemma loop_body_progress (w : World) :
  target w <> 0 ->
  progress_bar (page (final (loop_body w)))
  = Qmin (inject_Z (seconds w + 1) / inject_Z (target w * 3600)) 1.
Proof.
  intros NZ. unfold loop_body, seconds, target in *. cbn.
  rewrite true_div_some by lia.
  destruct (check_in_due _); reflexivity.
Qed.

(** X12: the progress bar is full exactly from the moment the seconds
    counted reach the target (target hours times 3600); before that it is
    the exact fraction, below 1, and above 0 once a second is counted. *)
Theorem progress_saturates (w : World) :
  In (target w) target_hours ->
  let p := progress_bar (page (final (loop_body w))) in
  let elapsed := seconds w + 1 in
  (target w * 3600 <= elapsed -> (p == 1)%Q) /\
  (elapsed < target w * 3600 ->
     (p == inject_Z elapsed / inject_Z (target w * 3600))%Q /\ (p < 1)%Q) /\
  (0 < elapsed -> (0 < p)%Q).
Proof.
  intros T. cbn zeta.
  assert (B : 0 < target w * 3600).
  { unfold target_hours in T. simpl in T. lia. }
  rewrite loop_body_progress by lia.
  set (e := seconds w + 1). set (b := target w * 3600) in *.
  assert (Bq : (0 < inject_Z b)%Q) by (rewrite Zlt_Qlt in B; exact B).
  split; [|split].
  - intros H. apply Q.min_r. apply Qle_shift_div_l; [exact Bq|].
    rewrite Qmult_1_l. rewrite Zle_Qle in H. exact H.
  - intros H.
    assert (L : (inject_Z e / inject_Z b < 1)%Q).
    { apply Qlt_shift_div_r; [exact Bq|]. rewrite Qmult_1_l.
      rewrite Zlt_Qlt in H. exact H. }
    split.
    + apply Q.min_l. now apply Qlt_le_weak.
    + rewrite Q.min_l by now apply Qlt_le_weak. exact L.
  - intros H.
    assert (P : (0 < inject_Z e / inject_Z b)%Q).
    { apply Qlt_shift_div_l; [exact Bq|]. rewrite Qmult_0_l.
      rewrite Zlt_Qlt in H. exact H. }
    apply Q.min_glb_lt; [exact P|reflexivity].
Qed.

Lemma progress_saturates_witness :
  In (target (on_app (with_worked_seconds 49999) started_world))
     target_hours /\
  (progress_bar
     (page (final (loop_body
                     (on_app (with_worked_seconds 49999) started_world))))
   == 1)%Q.
Proof.
  split; [simpl; tauto|].
  apply (progress_saturates
           (on_app (with_worked_seconds 49999) started_world)).
  - simpl; tauto.
  - vm_compute. discriminate.
Defined.

(** ** The log along a run *)

Lemma deliver_log (quotes : list string) (e : Event) (w : World) :
  (logs (final (deliver quotes e w)) = logs w /\
   conn (app_logic (final (deliver quotes e w))) = conn (app_logic w)) \/
  (is_answer e = true /\ dialog_open (page w) = true /\
   dialog_open (page (final (deliver quotes e w))) = false /\
   signals (deliver quotes e w) = [] /\
   exists x, logs (final (deliver quotes e w)) = (logs w ++ [x])%list /\
             entry_id x = next_rowid (conn (app_logic w)) /\
             binary_score x /\
             sqlite_sequence (conn (app_logic (final (deliver quotes e w))))
             = next_rowid (conn (app_logic w))).
Proof.
  unfold logs. event_cases e w;
    try (left; split; reflexivity).
  - left. pose proof (start_work_untouched quotes now pick w) as U.
    unfold untouched_by_start in U.
    injection U as _ _ _ _ _ _ -> _ _. split; reflexivity.
  - left. pose proof (timer_wake_untouched quotes w) as U.
    unfold untouched_by_timer in U. cbn [deliver] in U.
    injection U as _ _ _ _ _ _ _ _ _ _ _ -> _ _ _ _. split; reflexivity.
  - right. repeat split. eexists. split; [reflexivity|].
    split; [reflexivity|]. split; [right|]; reflexivity.
  - right. repeat split. eexists. split; [reflexivity|].
    split; [reflexivity|]. split; [left|]; reflexivity.
Qed.

Lemma run_app (quotes : list string) (es1 es2 : list Event) (w : World) :
  fst (run quotes (es1 ++ es2) w)
  = fst (run quotes es2 (fst (run quotes es1 w))).
Proof.
  revert w. induction es1 as [|a es1 IH]; intros w; [reflexivity|].
  cbn [app]. rewrite !run_cons. cbn [fst]. apply IH.
Qed.

(** X13: along any run the log only grows at its end; every entry written
    has score 0 or 1, the keys of the new entries increase in the order of
    writing and lie above every key that was in the table, and there are no
    more new entries than answer clicks. *)
Theorem run_log_growth (quotes : list string) (es : list Event) (w : World) :
  exists l,
    logs (fst (run quotes es w)) = (logs w ++ l)%list /\
    Forall binary_score l /\ ordered_by_id l /\
    Forall (fun y => forall x, In x (logs w) -> entry_id x < entry_id y) l /\
    (List.length l <= List.length (filter is_answer es))%nat.
Proof.
  revert w. induction es as [|e es IH]; intros w.
  - exists []. simpl. rewrite app_nil_r.
    repeat split; try constructor.
  - rewrite run_cons. cbn [fst].
    destruct (IH (final (deliver quotes e w))) as (l2 & E2 & B2 & O2 & A2 & N2).
    destruct (deliver_log quotes e w)
      as [[E1 _]|(Ans & _ & _ & _ & x & E1 & Ix & Bx & _)].
    + exists l2. rewrite E2, E1. split; [reflexivity|].
      split; [exact B2|]. split; [exact O2|].
      split; [now rewrite E1 in A2|].
      cbn [filter]. destruct (is_answer e); simpl; lia.
    + exists (x :: l2). rewrite E2, E1, <- app_assoc.
      split; [reflexivity|]. split; [now constructor|].
      rewrite E1 in A2. rewrite Forall_forall in A2.
      split; [|split].
      * constructor; [exact O2|]. apply Forall_forall. intros y Iy.
        apply (A2 y Iy). apply in_or_app. right. now left.
      * constructor.
        -- intros z Iz. rewrite Ix. now apply next_rowid_above.
        -- apply Forall_forall. intros y Iy z Iz.
           apply (A2 y Iy). apply in_or_app. now left.
      * cbn [filter]. rewrite Ans. simpl. lia.
Qed.

(** ** The focus *)

(** X15: only a click on the focus button of a row changes the focus, and
    it sets it to the text of that row; every other event, ticks and
    deletions included, leaves the focus and its label as they are. *)
Theorem focus_changes_only_on_focus_click (quotes : list string)
    (e : Event) (w : World) :
  let w' := final (deliver quotes e w) in
  ((forall c, e <> ClickFocus c) ->
     current_task_focus (app_logic w') = current_task_focus (app_logic w) /\
     current_focus_label (page w') = current_focus_label (page w)) /\
  (forall c r, e = ClickFocus c -> find_row c w = Some r ->
     current_task_focus (app_logic w') = task_text r /\
     current_focus_label (page w') = focus_prefix ++ task_text r) /\
  (forall c, e = ClickFocus c -> find_row c w = None -> w' = w).
Proof.
  cbn zeta. split; [|split].
  - intros N. event_cases e w; try (split; reflexivity).
    + pose proof (start_work_untouched quotes now pick w) as U.
      unfold untouched_by_start in U.
      injection U as _ -> _ _ _ _ _ _ ->. split; reflexivity.
    + pose proof (timer_wake_untouched quotes w) as U.
      unfold untouched_by_timer in U. cbn [deliver] in U.
      injection U as _ _ -> _ _ _ _ _ _ _ _ _ _ _ _ ->. split; reflexivity.
    + now contradiction (N c).
  - intros c r -> F. cbn [deliver]. rewrite F. split; reflexivity.
  - intros c -> F. cbn [deliver]. rewrite F. reflexivity.
Qed.

Lemma focus_changes_only_on_focus_click_witness :
  (forall c, TimerWake <> ClickFocus c) /\
  seconds (final (deliver [] TimerWake focused_working_world))
  = seconds focused_working_world + 1 /\
  current_task_focus
    (app_logic (final (deliver [] TimerWake focused_working_world)))
  = "read" /\
  find_row 0 one_task_world = Some (mkRow 0 "read" false) /\
  current_task_focus (app_logic one_task_world) = "General Work" /\
  current_task_focus
    (app_logic (final (deliver [] (ClickFocus 0) one_task_world)))
  = "read".
Proof.
  split; [discriminate|]. split; [reflexivity|]. split.
  - apply (focus_changes_only_on_focus_click [] TimerWake
             focused_working_world).
    discriminate.
  - split; [reflexivity|]. split; [reflexivity|].
    apply (proj1 (proj2 (focus_changes_only_on_focus_click []
                           (ClickFocus 0) one_task_world))
             0%nat (mkRow 0 "read" false)); reflexivity.
Defined.

(** ** Witnesses *)

Lemma one_task_world_distinct : rows_distinct one_task_world.
Proof.
  split.
  - repeat constructor. simpl. tauto.
  - repeat constructor.
Defined.

Lemma delete_removes_clicked_row_witness :
  rows_distinct one_task_world /\
  tasks (final (deliver [] (ClickDelete 0) one_task_world))
  = filter (other_row 0) (tasks one_task_world).
Proof.
  split; [exact one_task_world_distinct|].
  apply (delete_removes_clicked_row [] 0 one_task_world
           one_task_world_distinct).
Defined.

Lemma add_then_delete_restores_witness :
  rows_distinct one_task_world /\
  task_input (page (on_page (with_task_input "read") one_task_world)) <> "" /\
  tasks (final (deliver [] (ClickDelete 1)
                  (add_task (on_page (with_task_input "read")
                               one_task_world))))
  = tasks one_task_world.
Proof.
  split; [exact one_task_world_distinct|]. split; [discriminate|].
  apply (add_then_delete_restores []
           (on_page (with_task_input "read") one_task_world)).
  - exact one_task_world_distinct.
  - discriminate.
Defined.

Lemma started_world_valid : valid started_world.
Proof. split; [simpl; tauto|reflexivity]. Defined.

Lemma wakes_add_seconds_witness :
  valid started_world /\ working started_world = true /\
  timers started_world <> O /\
  seconds (fst (run [] (repeat TimerWake 5) started_world))
  = seconds started_world + Z.of_nat 5.
Proof.
  split; [exact started_world_valid|]. split; [reflexivity|].
  split; [discriminate|].
  apply (wakes_add_seconds [] 5 started_world started_world_valid).
  - reflexivity.
  - discriminate.
Defined.

Lemma restart_keeps_old_timer_witness :
  valid started_world /\ working started_world = true /\
  timers (fst (run [] [ClickStart 1 0; ClickStart 2 0] started_world))
  = S (timers started_world).
Proof.
  split; [exact started_world_valid|]. split; [reflexivity|].
  apply (restart_keeps_old_timer [] 1 2 0 0 started_world
           started_world_valid).
  reflexivity.
Defined.

(** ** A table made by the program *)

Lemma max_rowid_le (l : list LogEntry) (m : Z) :
  0 <= m -> (forall x, In x l -> entry_id x <= m) -> max_rowid l <= m.
Proof.
  intros M. induction l as [|y t IH]; intros H; simpl; [exact M|].
  assert (entry_id y <= m) by (apply H; now left).
  assert (max_rowid t <= m) by (apply IH; intros x I; apply H; now right).
  lia.
Qed.

Lemma keys_count_up_next (db : Store) :
  keys_count_up db ->
  next_rowid db = Z.of_nat (S (List.length (hourly_logs db))).
Proof.
  intros [K S]. unfold next_rowid. rewrite S.
  assert (max_rowid (hourly_logs db)
          <= Z.of_nat (List.length (hourly_logs db))).
  { apply max_rowid_le; [lia|]. intros x I.
    apply (in_map entry_id) in I. rewrite K in I.
    apply in_map_iff in I. destruct I as (k & <- & I).
    apply in_seq in I. lia. }
  lia.
Qed.

Lemma deliver_keys_count_up (quotes : list string) (e : Event) (w : World) :
  keys_count_up (conn (app_logic w)) ->
  keys_count_up (conn (app_logic (final (deliver quotes e w)))).
Proof.
  intros K.
  destruct (deliver_log quotes e w)
    as [[_ C]|(_ & _ & _ & _ & x & E & Ix & _ & Sq)].
  - now rewrite C.
  - pose proof (keys_count_up_next _ K) as N. destruct K as [K _].
    unfold logs in E. unfold keys_count_up.
    rewrite Sq, E, length_app, map_app, K. cbn [List.length map].
    replace (List.length (hourly_logs (conn (app_logic w))) + 1)%nat
      with (S (List.length (hourly_logs (conn (app_logic w))))) by lia.
    split; [|exact N].
    rewrite seq_S, map_app. cbn [map]. rewrite Ix, N.
    reflexivity.
Qed.

(** X18: on a database file that did not hold the table, the entries
    written get the keys 1, 2, 3, ... in the order of writing, without
    gaps, whatever else the user does in between. *)
Theorem fresh_log_keys_count_up (quotes : list string) (pick : nat)
    (es : list Event) :
  let w := fst (run quotes es (main_init quotes None pick)) in
  map entry_id (logs w) = map Z.of_nat (seq 1 (List.length (logs w))).
Proof.
  cbn zeta.
  apply (run_preserves quotes (fun w => keys_count_up (conn (app_logic w)))).
  - apply deliver_keys_count_up.
  - unfold main_init, update_quote.
    destruct quotes; split; reflexivity.
Qed.
